(** * jetbrains.py: release lookup, download and changelog rendering

    A shallow embedding of [jetbrains.py] and the properties of its
    nested accessor, release selector, checksum validator and changelog
    renderer.

    Conventions of the embedding:
    - a Python [str] is the list of its Unicode code points ([pystr]);
    - a decoded JSON document is a [value];
    - a call either returns or raises: [result];
    - code that prints, downloads or writes files threads a [world]. *)

From Stdlib Require Import ZArith NArith Lia.
From Stdlib.Strings Require Import Ascii String Byte.
From Stdlib.Numbers Require Import DecimalString.
From stdpp Require Import base option list functions.
From Equations Require Import Equations.

Local Set Warnings "-register-all".
Local Open Scope Z_scope.

(** ** Python strings *)

Abbreviation pystr := (list N).

(** The code points of an ASCII literal of the source. *)
Definition lit (s : string) : pystr :=
  List.map N_of_ascii (list_ascii_of_string s).
Arguments lit s%_string.

(** [str.isspace] for one character: the code points for which CPython's
    [Py_UNICODE_ISSPACE] holds. *)
Definition isspace (c : N) : bool :=
  ((9 <=? c) && (c <=? 13) || (28 <=? c) && (c <=? 32) || (c =? 133)
   || (c =? 160) || (c =? 5760) || (8192 <=? c) && (c <=? 8202)
   || (c =? 8232) || (c =? 8233) || (c =? 8239) || (c =? 8287)
   || (c =? 12288))%N.

(** [str.lstrip()], [str.rstrip()] and [str.strip()] without argument. *)
Fixpoint lstrip (s : pystr) : pystr :=
  match s with
  | c :: s' => if isspace c then lstrip s' else s
  | [] => []
  end.

Definition rstrip (s : pystr) : pystr := rev (lstrip (rev s)).

Definition strip (s : pystr) : pystr := rstrip (lstrip s).

(** [str.split()] without argument: the maximal runs of characters that
    are not whitespace.  [word] is the run being read. *)
Fixpoint split_from (word : pystr) (s : pystr) : list pystr :=
  match s with
  | [] => match word with [] => [] | _ => [rev word] end
  | c :: s' =>
      if isspace c
      then match word with
           | [] => split_from [] s'
           | _ => rev word :: split_from [] s'
           end
      else split_from (c :: word) s'
  end.

Definition split (s : pystr) : list pystr := split_from [] s.

(** ** Decoded JSON documents and other Python values *)

Inductive value : Type :=
| VNone
| VBool (b : bool)
| VInt (i : Z)
| VFloat (bits : Z)                      (* an IEEE-754 double, by its bit pattern *)
| VStr (s : pystr)
| VList (items : list value)
| VDict (items : list (pystr * value)).  (* string keys, in insertion order *)

Abbreviation pydict := (list (pystr * value)).

(** [d.get(key)] *)
Fixpoint dict_get (key : pystr) (d : pydict) : option value :=
  match d with
  | [] => None
  | (k, v) :: d' => if decide (k = key) then Some v else dict_get key d'
  end.

(** [d[key] = v]: an existing key keeps its place, a new one goes last. *)
Fixpoint dict_set (key : pystr) (v : value) (d : pydict) : pydict :=
  match d with
  | [] => [(key, v)]
  | (k, w) :: d' =>
      if decide (k = key) then (k, v) :: d' else (k, w) :: dict_set key v d'
  end.

(** ** Exceptions *)

Inductive type_error : Type :=
| InvalidInstance (obj : value)          (* get_item's own check of the root *)
| NotSubscriptable (obj : value)
| BadIndex (obj key : value)             (* a sequence indexed by a non-integer *)
| Unhashable (key : value)
| NotIterable (obj : value)
| NoItemAssignment (obj : value)
| NotAMapping (obj : value).           (* the operand of a double-star call *)

Inductive exn : Type :=
| KeyError (key : value)
| IndexError (obj : value)
| TypeError (why : type_error)
| AttributeError (obj : value) (attr : pystr)
| NameError (name : pystr)
| ValueError (msg : pystr)               (* also JSON and Unicode decoding *)
| OSError (msg : pystr).                 (* also urllib's URLError *)

Inductive result (A : Type) : Type :=
| Ok (a : A)
| Raise (e : exn).
Arguments Ok {A} a.
Arguments Raise {A} e.

Definition rbind {A B} (r : result A) (k : A -> result B) : result B :=
  match r with
  | Ok a => k a
  | Raise e => Raise e
  end.

Declare Scope result_scope.
Delimit Scope result_scope with result.
Notation "x <- r ;; k" := (rbind r (fun x => k))
  (at level 100, r at next level, right associativity) : result_scope.
Local Open Scope result_scope.

(** [except (KeyError, IndexError)] *)
Definition is_lookup_error (e : exn) : bool :=
  match e with
  | KeyError _ | IndexError _ => true
  | _ => false
  end.

(** ** Subscripting: [obj[key]] *)

(** [isinstance(obj, (Mapping, Sequence))]: a [str] is a [Sequence]. *)
Definition is_mapping_or_sequence (obj : value) : bool :=
  match obj with
  | VDict _ | VList _ | VStr _ => true
  | _ => false
  end.

(** The keys a list or string accepts: an [int], and [bool] as its subclass. *)
Definition index_of (key : value) : option Z :=
  match key with
  | VInt i => Some i
  | VBool b => Some (if b then 1 else 0)
  | _ => None
  end.

(** Indexing a sequence: a negative index counts from the end. *)
Definition seq_getitem {A} (l : list A) (i : Z) : option A :=
  let n := Z.of_nat (length l) in
  let j := if i <? 0 then i + n else i in
  if (0 <=? j) && (j <? n) then l !! Z.to_nat j else None.

Definition hashable (key : value) : bool :=
  match key with
  | VList _ | VDict _ => false
  | _ => true
  end.

Definition subscript (obj key : value) : result value :=
  match obj with
  | VDict d =>
      if hashable key
      then match key with
           | VStr k =>
               match dict_get k d with
               | Some v => Ok v
               | None => Raise (KeyError key)
               end
           | _ => Raise (KeyError key)
           end
      else Raise (TypeError (Unhashable key))
  | VList l =>
      match index_of key with
      | Some i =>
          match seq_getitem l i with
          | Some v => Ok v
          | None => Raise (IndexError obj)
          end
      | None => Raise (TypeError (BadIndex obj key))
      end
  | VStr s =>
      match index_of key with
      | Some i =>
          match seq_getitem s i with
          | Some c => Ok (VStr [c])
          | None => Raise (IndexError obj)
          end
      | None => Raise (TypeError (BadIndex obj key))
      end
  | _ => Raise (TypeError (NotSubscriptable obj))
  end.

(** ** get_item *)

(** The [while key is not NoMoreKeys] loop: [keys] is what [keys.pop(0)]
    still has to deliver, [default = None] is the sentinel
    [RaiseException]. *)
Fixpoint get_item_loop (current : value) (keys : list value)
    (default : option value) : result value :=
  match keys with
  | [] => Ok current
  | key :: keys' =>
      match subscript current key with
      | Ok v => get_item_loop v keys' default
      | Raise exc =>
          if is_lookup_error exc
          then match default with
               | None => Raise exc
               | Some d => Ok d
               end
          else Raise exc
      end
  end.

Definition get_item (obj : value) (keys : list value)
    (default : option value) : result value :=
  if is_mapping_or_sequence obj
  then get_item_loop obj keys default
  else Raise (TypeError (InvalidInstance obj)).

(** Traversing one level per key, with nothing caught: the path the
    accessor is meant to follow. *)
Fixpoint walk (obj : value) (keys : list value) : result value :=
  match keys with
  | [] => Ok obj
  | key :: keys' => v <- subscript obj key ;; walk v keys'
  end.

(** What the caller of [get_item] sees of a traversal that ended in
    [r]: only a lookup error meets the [except] clause. *)
Definition caught (r : result value) (default : option value)
    : result value :=
  match r with
  | Ok leaf => Ok leaf
  | Raise exc =>
      if is_lookup_error exc
      then match default with
           | None => Raise exc
           | Some d => Ok d
           end
      else Raise exc
  end.

(** ** string.Template *)

(** What [Template.pattern] finds in a template: a character of plain
    text (an escaped [$$] is a plain [$]), a placeholder [$name] or
    [${name}], or an ill-formed [$]. *)
Inductive token : Type :=
| TLit (c : N)
| TVar (name : pystr)
| TInvalid.

Definition dollar : N := 36.
Definition lbrace : N := 123.
Definition rbrace : N := 125.

(** [idpattern]: an ASCII letter or underscore, then ASCII letters,
    digits and underscores, in either case ([re.IGNORECASE]). *)
Definition is_id_start (c : N) : bool :=
  ((c =? 95) || (97 <=? c) && (c <=? 122) || (65 <=? c) && (c <=? 90))%N.

Definition is_id_char (c : N) : bool :=
  (is_id_start c || (48 <=? c) && (c <=? 57))%N.

Inductive scan_state : Type :=
| Text                      (* outside a placeholder *)
| Dollar                    (* just after a [$] *)
| Name (acc : pystr)        (* inside [$name], [acc] reversed *)
| Brace (acc : pystr).      (* inside [${name}], [acc] reversed *)

(** One left-to-right pass, as [pattern.sub] makes it.  Nothing after an
    ill-formed [$] matters: [substitute] raises there. *)
Fixpoint scan (st : scan_state) (s : pystr) : list token :=
  match s with
  | [] =>
      match st with
      | Text => []
      | Name acc => [TVar (rev acc)]
      | Dollar | Brace _ => [TInvalid]
      end
  | c :: s' =>
      match st with
      | Text => if (c =? dollar)%N then scan Dollar s' else TLit c :: scan Text s'
      | Dollar =>
          if (c =? dollar)%N then TLit dollar :: scan Text s'
          else if is_id_start c then scan (Name [c]) s'
          else if (c =? lbrace)%N then scan (Brace []) s'
          else [TInvalid]
      | Name acc =>
          if is_id_char c then scan (Name (c :: acc)) s'
          else TVar (rev acc)
               :: (if (c =? dollar)%N then scan Dollar s' else TLit c :: scan Text s')
      | Brace [] => if is_id_start c then scan (Brace [c]) s' else [TInvalid]
      | Brace acc =>
          if is_id_char c then scan (Brace (c :: acc)) s'
          else if (c =? rbrace)%N then TVar (rev acc) :: scan Text s'
          else [TInvalid]
      end
  end.

(** The names a template substitutes, in order of appearance. *)
Definition placeholders (template : pystr) : list pystr :=
  omap (fun t => match t with TVar n => Some n | _ => None end)
       (scan Text template).

(** What the standard library supplies and the script only calls. *)
Class PyLib : Type := {
  (** [str(x)] of a float, a list or a dict *)
  py_repr : value -> pystr;
  (** [str.upper] *)
  str_upper : pystr -> pystr;
  (** [urllib.parse.urlencode] of a dict of strings *)
  urlencode : list (pystr * pystr) -> pystr;
  (** [urllib.parse.urlparse(url).path] *)
  urlparse_path : value -> result pystr;
  (** [json.loads] *)
  json_loads : list byte -> result value;
  (** [bytes.decode()] *)
  bytes_decode : list byte -> result pystr;
}.

Section WithLibrary.
Context {L : PyLib}.

(** [str(x)], as [Template.substitute] applies it to each value. *)
Definition py_str (v : value) : pystr :=
  match v with
  | VStr s => s
  | VNone => lit "None"
  | VBool true => lit "True"
  | VBool false => lit "False"
  | VInt i => lit (NilZero.string_of_int (Z.to_int i))
  | _ => py_repr v
  end.

Fixpoint substitute_tokens (ts : list token) (mapping : pydict)
    : result pystr :=
  match ts with
  | [] => Ok []
  | TLit c :: ts' => rest <- substitute_tokens ts' mapping ;; Ok (c :: rest)
  | TVar name :: ts' =>
      match dict_get name mapping with
      | None => Raise (KeyError (VStr name))
      | Some v =>
          rest <- substitute_tokens ts' mapping ;; Ok (py_str v ++ rest)
      end
  | TInvalid :: _ => Raise (ValueError (lit "Invalid placeholder in string"))
  end.

(** [Template(template).substitute] with [mapping] as keyword arguments *)
Definition substitute (template : pystr) (mapping : pydict) : result pystr :=
  substitute_tokens (scan Text template) mapping.

End WithLibrary.

(** ** The changelog templates *)

Definition nl : string := String (ascii_of_nat 10) EmptyString.
Definition dq : string := String (ascii_of_nat 34) EmptyString.

Definition lines (ls : list string) : string :=
  List.fold_right (fun l acc => (l ++ nl ++ acc)%string) EmptyString ls.

Definition WHATSNEW_MAIN_TEMPLATE : pystr := lit (lines [
  "<!DOCTYPE html><html lang=" ++ dq ++ "en" ++ dq ++ ">";
  "<head>";
  "<meta charset=" ++ dq ++ "utf-8" ++ dq ++ ">";
  "<meta name=" ++ dq ++ "viewport" ++ dq ++ " content=" ++ dq
    ++ "width=device-width, initial-scale=1.0" ++ dq ++ ">";
  "<title>$product - What's New</title>";
  "<style>";
  "article header { margin-bottom: 1em; }";
  "article header h2 { margin-bottom: 0; }";
  "article:not(:last-child) { padding: 1em 0; border-bottom: 1px solid #ddd; }";
  "article section { margin-bottom: 1em; }";
  "";
  ".subtitle { font-size: 0.9em; color: #666; margin-top: 0; }";
  "</style>";
  "<body>";
  "<h1>What's New in $product</h1>";
  "$content";
  "</body>";
  "</html>"
]%string).

Definition WHATSNEW_ENTRY_TEMPLATE : pystr := lit (lines [
  "<article>";
  "<header>";
  "<h2 id=" ++ dq ++ "$version" ++ dq ++ ">$version ($build)</h2>";
  "<span class=" ++ dq ++ "subtitle" ++ dq ++ ">$date</span>";
  "</header>";
  "<section>";
  "$whatsnew";
  "</section>";
  "<footer>";
  "<a href=" ++ dq ++ "$notesLink" ++ dq ++ ">Release Notes</a></div>";
  "</footer>";
  "</article>"
]%string).

Definition WHATSNEW_EMPTY_NOTES : pystr := lit "No information provided.".

(** ** SHA-256 (FIPS 180-4), as [hashlib.sha256] computes it *)

Module SHA256.
Local Open Scope N_scope.

Definition word (x : N) : N := x mod 2 ^ 32.
Definition add (x y : N) : N := word (x + y).
Definition rotr (n x : N) : N :=
  N.lor (N.shiftr x n) (word (N.shiftl x (32 - n))).
Definition shr (n x : N) : N := N.shiftr x n.
Definition neg (x : N) : N := N.lxor x 0xffffffff.

Definition Ch (x y z : N) : N := N.lxor (N.land x y) (N.land (neg x) z).
Definition Maj (x y z : N) : N :=
  N.lxor (N.lxor (N.land x y) (N.land x z)) (N.land y z).
Definition bsig0 (x : N) : N := N.lxor (N.lxor (rotr 2 x) (rotr 13 x)) (rotr 22 x).
Definition bsig1 (x : N) : N := N.lxor (N.lxor (rotr 6 x) (rotr 11 x)) (rotr 25 x).
Definition ssig0 (x : N) : N := N.lxor (N.lxor (rotr 7 x) (rotr 18 x)) (shr 3 x).
Definition ssig1 (x : N) : N := N.lxor (N.lxor (rotr 17 x) (rotr 19 x)) (shr 10 x).

(** The first [n] primes, by trial division. *)
Definition is_prime (p : N) : bool :=
  (1 <? p) && forallb (fun d => negb (p mod d =? 0))
                      (List.map N.of_nat (seq 2 (N.to_nat p - 2))).

Definition primes (n : nat) : list N :=
  firstn n (List.filter is_prime (List.map N.of_nat (seq 0 320))).

(** The integer cube root, bit by bit from bit [bits - 1] down. *)
Fixpoint cube_root (bits : nat) (r x : N) : N :=
  match bits with
  | O => r
  | S b =>
      let r' := r + 2 ^ N.of_nat b in
      cube_root b (if r' * r' * r' <=? x then r' else r) x
  end.

(** The round constants: the first 32 bits of the fractional parts of
    the cube roots of the first 64 primes. *)
Definition K : list N :=
  Eval vm_compute in
    List.map (fun p => word (cube_root 36 0 (p * 2 ^ 96))) (primes 64).

(** The eight working registers. *)
Record regs : Type := Regs { ra : N; rb : N; rc : N; rd : N;
                             re : N; rf : N; rg : N; rh : N }.

(** The initial hash value: the first 32 bits of the fractional parts of
    the square roots of the first 8 primes. *)
Definition initial : regs :=
  Eval vm_compute in
    match List.map (fun p => word (N.sqrt (p * 2 ^ 64))) (primes 8) with
    | [a; b; c; d; e; f; g; h] => Regs a b c d e f g h
    | _ => Regs 0 0 0 0 0 0 0 0
    end.

(** Padding: a one bit, zeros up to 56 modulo 64 bytes, then the bit
    length on eight bytes, most significant first. *)
Definition be_bytes (count : nat) (x : N) : list N :=
  List.map (fun i => (x / 2 ^ (8 * N.of_nat i)) mod 256) (rev (seq 0 count)).

Definition pad (msg : list N) : list N :=
  let len := N.of_nat (length msg) in
  let zeros := (64 - (len + 9) mod 64) mod 64 in
  msg ++ 0x80 :: repeat 0 (N.to_nat zeros) ++ be_bytes 8 (8 * len).

(** Big-endian 32-bit words of a byte string whose length is a multiple
    of four. *)
Fixpoint words (bs : list N) : list N :=
  match bs with
  | b3 :: b2 :: b1 :: b0 :: bs' =>
      (((b3 * 256 + b2) * 256 + b1) * 256 + b0) :: words bs'
  | _ => []
  end.

(** The message schedule, newest word first: [extend n w] adds [n] words
    to the sixteen of the block. *)
Fixpoint extend (n : nat) (w : list N) : list N :=
  match n with
  | O => w
  | S n' =>
      let wt := add (add (ssig1 (nth 1 w 0)) (nth 6 w 0))
                    (add (ssig0 (nth 14 w 0)) (nth 15 w 0)) in
      extend n' (wt :: w)
  end.

Definition schedule (block : list N) : list N := rev (extend 48 (rev block)).

Definition round (r : regs) (kw : N * N) : regs :=
  let t1 := add (add (add (rh r) (bsig1 (re r))) (Ch (re r) (rf r) (rg r)))
                (add (fst kw) (snd kw)) in
  let t2 := add (bsig0 (ra r)) (Maj (ra r) (rb r) (rc r)) in
  Regs (add t1 t2) (ra r) (rb r) (rc r) (add (rd r) t1) (re r) (rf r) (rg r).

Definition compress (h : regs) (block : list N) : regs :=
  let r := fold_left round (combine K (schedule block)) h in
  Regs (add (ra h) (ra r)) (add (rb h) (rb r)) (add (rc h) (rc r))
       (add (rd h) (rd r)) (add (re h) (re r)) (add (rf h) (rf r))
       (add (rg h) (rg r)) (add (rh h) (rh r)).

(** The blocks of sixteen words; [fuel] bounds their number. *)
Fixpoint blocks (fuel : nat) (ws : list N) : list (list N) :=
  match fuel, ws with
  | S fuel', _ :: _ => firstn 16 ws :: blocks fuel' (skipn 16 ws)
  | _, _ => []
  end.

Definition digest_words (msg : list N) : regs :=
  let ws := words (pad msg) in
  fold_left compress (blocks (length ws) ws) initial.

(** The 32 bytes of the digest. *)
Definition digest (msg : list byte) : list N :=
  let r := digest_words (List.map Byte.to_N msg) in
  List.concat (List.map (be_bytes 4)
    [ra r; rb r; rc r; rd r; re r; rf r; rg r; rh r]).

(** Lowercase hexadecimal, two digits a byte. *)
Definition hexdigit (n : N) : N := if n <? 10 then 48 + n else 87 + n.

Definition hex (bs : list N) : pystr :=
  List.concat (List.map (fun b => [hexdigit (b / 16 mod 16); hexdigit (b mod 16)]) bs).

End SHA256.

(** A [hashlib.sha256()] object is determined by the bytes it has been
    fed: [update] calls concatenate (hashlib documents [m.update(a);
    m.update(b)] as [m.update(a+b)]). *)
Definition hash_object : Type := list byte.
Definition hashlib_sha256 : hash_object := [].
Definition update (h : hash_object) (data : list byte) : hash_object := h ++ data.
Definition hexdigest (h : hash_object) : pystr := SHA256.hex (SHA256.digest h).

(** ** Calls that change state *)

(** A call on a state [S] returns or raises, and leaves a state. *)
Definition M (S A : Type) : Type := S -> result A * S.

Definition ret {S A} (a : A) : M S A := fun s => (Ok a, s).

Definition lift {S A} (r : result A) : M S A := fun s => (r, s).

Definition bind {S A B} (m : M S A) (k : A -> M S B) : M S B :=
  fun s =>
    match m s with
    | (Ok a, s') => k a s'
    | (Raise e, s') => (Raise e, s')
    end.

Notation "x <~ m ;; k" := (bind m (fun x => k))
  (at level 100, m at next level, right associativity) : result_scope.

(** ** generate_whatsnew *)

(** The objects the caller shares with a call, by reference. *)
Abbreviation loc := nat.
Abbreviation store := (loc -> value).

Definition load (l : loc) : M store value := fun σ => (Ok (σ l), σ).

(** [obj[key] = v] on the object at [l] *)
Definition setitem (l : loc) (key : pystr) (v : value) : M store unit :=
  fun σ =>
    match σ l with
    | VDict d => (Ok (), <[l := VDict (dict_set key v d)]> σ)
    | obj => (Raise (TypeError (NoItemAssignment obj)), σ)
    end.

(** [obj.get(key)] and [obj.get(key, default)]: only a dict has [get]. *)
Definition method_get (obj : value) (key : pystr) : result (option value) :=
  match obj with
  | VDict d => Ok (dict_get key d)
  | _ => Raise (AttributeError obj (lit "get"))
  end.

(** [whatsnew is None or whatsnew.strip() == ''], on the result of
    [release.get('whatsnew')]: an absent key reads as [None], and only a
    [str] has [strip]. *)
Definition notes_missing (whatsnew : option value) : result bool :=
  match whatsnew with
  | None | Some VNone => Ok true
  | Some (VStr s) => Ok (bool_decide (strip s = []))
  | Some v => Raise (AttributeError v (lit "strip"))
  end.

(** The keyword arguments of a double-star call. *)
Definition kwargs_of (obj : value) : result pydict :=
  match obj with
  | VDict d => Ok d
  | _ => Raise (TypeError (NotAMapping obj))
  end.

Section Changelog.
Context {L : PyLib}.

(** The body of the loop, for the release at [l]. *)
Definition render_release (l : loc) : M store pystr :=
  release <~ load l ;;
  whatsnew <~ lift (method_get release (lit "whatsnew")) ;;
  missing <~ lift (notes_missing whatsnew) ;;
  _ <~ (if missing : bool
        then setitem l (lit "whatsnew") (VStr WHATSNEW_EMPTY_NOTES)
        else ret ()) ;;
  release <~ load l ;;
  fields <~ lift (kwargs_of release) ;;
  lift (substitute WHATSNEW_ENTRY_TEMPLATE fields).

(** [for release in releases: ... entries.append(entry)] *)
Fixpoint render_entries (releases : list loc) : M store (list pystr) :=
  match releases with
  | [] => ret []
  | l :: rest =>
      entry <~ render_release l ;;
      entries <~ render_entries rest ;;
      ret (entry :: entries)
  end.

Definition generate_whatsnew (name : value) (releases : list loc)
    : M store pystr :=
  entries <~ render_entries releases ;;
  lift (substitute WHATSNEW_MAIN_TEMPLATE
          [(lit "product", name); (lit "content", VStr (List.concat entries))]).

End Changelog.

(** ** The world of a run *)

Record world : Type := World {
  (** whether the module namespace binds [sys]: the import sits in the
      [if __name__ == '__main__'] block *)
  sys_imported : bool;
  (** [urlopen(url).read()]: the body served, or the error raised *)
  http : value -> result (list byte);
  (** whether [open(path, 'wb')] succeeds *)
  can_open : pystr -> bool;
  (** the regular files, by path *)
  files : pystr -> option (list byte);
  (** the objects printed, oldest first *)
  stdout : list value;
  stderr : list value;
}.

Definition with_files (f : pystr -> option (list byte)) (w : world) : world :=
  World (sys_imported w) (http w) (can_open w) f (stdout w) (stderr w).

(** [print(x)] *)
Definition print (x : value) : M world unit :=
  fun w => (Ok (), World (sys_imported w) (http w) (can_open w) (files w)
                         (stdout w ++ [x]) (stderr w)).

(** [print(x, file=sys.stderr)]: the name [sys] is looked up first. *)
Definition print_stderr (x : value) : M world unit :=
  fun w =>
    if sys_imported w
    then (Ok (), World (sys_imported w) (http w) (can_open w) (files w)
                       (stdout w) (stderr w ++ [x]))
    else (Raise (NameError (lit "sys")), w).

(** [os.path.basename] and [os.path.join] of [posixpath]. *)
Definition slash : N := 47.

Fixpoint basename_from (acc : pystr) (p : pystr) : pystr :=
  match p with
  | [] => rev acc
  | c :: p' => if (c =? slash)%N then basename_from [] p' else basename_from (c :: acc) p'
  end.

Definition basename (p : pystr) : pystr := basename_from [] p.

Definition ends_with_slash (p : pystr) : bool :=
  match rev p with
  | c :: _ => (c =? slash)%N
  | [] => false
  end.

Definition path_join (a b : pystr) : pystr :=
  match b with
  | c :: _ =>
      if (c =? slash)%N then b
      else if ends_with_slash a || bool_decide (a = []) then a ++ b
      else a ++ slash :: b
  | [] => if ends_with_slash a || bool_decide (a = []) then a else a ++ [slash]
  end.

(** [fo.write(data)] on the file open at [path] *)
Definition fo_write (path : pystr) (data : list byte) (w : world) : world :=
  with_files (<[path := Some (default [] (files w path) ++ data)]> (files w)) w.

(** A value together with the equation that names it. *)
Definition inspect {A} (a : A) : {b : A | a = b} := exist _ a eq_refl.

(** The [while True] loop of [download]: [urlfo] is what the response
    has still to deliver, [urlfo.read(1024)] its first 1024 bytes. *)
Equations? download_loop (path : pystr) (urlfo : list byte) (w : world)
    : world by wf (length urlfo) lt :=
download_loop path urlfo w with inspect (take 1024 urlfo) := {
  | exist _ [] _ => w
  | exist _ (b :: data) E =>
      download_loop path (drop 1024 urlfo) (fo_write path (b :: data) w) }.
Proof.
  destruct urlfo as [|b' urlfo]; [discriminate|].
  rewrite length_drop. simpl. lia.
Qed.

(** The [while True] loop of [validate], on the open file [fi]. *)
Equations? validate_loop (fi : list byte) (h : hash_object)
    : hash_object by wf (length fi) lt :=
validate_loop fi h with inspect (take 1024 fi) := {
  | exist _ [] _ => h
  | exist _ (b :: data) E => validate_loop (drop 1024 fi) (update h (b :: data)) }.
Proof.
  destruct fi as [|b' fi]; [discriminate|].
  rewrite length_drop. simpl. lia.
Qed.

Definition read (url : value) : M world (list byte) :=
  fun w => (http w url, w).

Definition validate (filename : pystr) (checksum_value : pystr)
    : M world bool :=
  fun w =>
    match files w filename with
    | None => (Raise (OSError filename), w)
    | Some contents =>
        let h := validate_loop contents hashlib_sha256 in
        (Ok (bool_decide (checksum_value = hexdigest h)), w)
    end.

Definition JETBRAINS_BASE_URL : pystr :=
  lit "https://data.services.jetbrains.com/products/releases".

(** The parameters of [main]; [dest] and [skip_validation] are what
    [kwargs.get] finds. *)
Record arguments : Type := Args {
  command : pystr;
  code : pystr;
  name : option pystr;
  version : option pystr;
  build : option pystr;
  latest : bool;
  dest : option pystr;
  skip_validation : bool;
}.

(** Truth value of a parameter that is [None] or a [str]. *)
Definition truthy (x : option pystr) : bool :=
  match x with
  | Some (_ :: _) => true
  | _ => false
  end.

(** [x == wanted] for a [str] [wanted]: no other type equals a [str]. *)
Definition equals_str (x : value) (wanted : option pystr) : bool :=
  match x, wanted with
  | VStr s, Some t => bool_decide (s = t)
  | _, _ => false
  end.

(** What [for release in obj] visits. *)
Definition py_iter (obj : value) : result (list value) :=
  match obj with
  | VList items => Ok items
  | VDict d => Ok (List.map (fun kv => VStr (fst kv)) d)
  | VStr s => Ok (List.map (fun c => VStr [c]) s)
  | _ => Raise (TypeError (NotIterable obj))
  end.

(** [command in (...)] *)
Definition command_in (c : pystr) (names : list pystr) : bool :=
  bool_decide (c ∈ names).

Section Script.
Context {L : PyLib}.

Definition get_url_filename (url : value) : result pystr :=
  path <- urlparse_path url ;; Ok (basename path).

Definition download (url : value) (destination : pystr) : M world pystr :=
  filename <~ lift (get_url_filename url) ;;
  let output_file := path_join destination filename in
  fun w =>
    if can_open w output_file
    then let w1 := with_files (<[output_file := Some []]> (files w)) w in
         match http w1 url with
         | Ok body => (Ok output_file, download_loop output_file body w1)
         | Raise e => (Raise e, w1)
         end
    else (Raise (OSError output_file), w).

(** The test of the selector loop, with Python's short-circuit order:
    [get_first_match or (version and release['version'] == version)
     or (build and release['build'] == build)]. *)
Definition release_matches (a : arguments) (release : value) : result bool :=
  let get_first_match := negb (truthy (version a) || truthy (build a)) in
  if get_first_match then Ok true
  else
    by_version <- (if truthy (version a)
                   then v <- subscript release (VStr (lit "version")) ;;
                        Ok (equals_str v (version a))
                   else Ok false) ;;
    if by_version : bool then Ok true
    else if truthy (build a)
         then b <- subscript release (VStr (lit "build")) ;;
              Ok (equals_str b (build a))
         else Ok false.

Definition linux_item (release : value) (key : string) : result value :=
  get_item release [VStr (lit "downloads"); VStr (lit "linux"); VStr (lit key)] None.
Arguments linux_item release key%_string.

(** The body of [if match:], up to its [break]; the value is what [main]
    then returns: 2 from inside, 0 after the loop. *)
Definition act_on_release (a : arguments) (release : value) : M world Z :=
  if command_in (command a) [lit "download"; lit "download_url"] then
    download_url <~ lift (linux_item release "link") ;;
    if bool_decide (command a = lit "download") then
      let dest := if truthy (dest a) then default [] (dest a) else lit "." in
      filename <~ download download_url dest ;;
      if negb (skip_validation a) then
        checksum_url <~ lift (linux_item release "checksumLink") ;;
        data <~ read checksum_url ;;
        text <~ lift (bytes_decode data) ;;
        checksum_value <~ lift (match split (strip text) with
                                | token :: _ => Ok token
                                | [] => Raise (IndexError (VList []))
                                end) ;;
        valid <~ validate filename checksum_value ;;
        if negb valid then
          _ <~ print_stderr (VStr (lit "Checksum validation failed")) ;;
          ret 2
        else
          _ <~ print (VStr filename) ;; ret 0
      else
        _ <~ print (VStr filename) ;; ret 0
    else if bool_decide (command a = lit "download_url") then
      _ <~ print download_url ;; ret 0
    else ret 0
  else if command_in (command a) [lit "checksum"; lit "checksum_url"] then
    checksum_url <~ lift (linux_item release "checksumLink") ;;
    if bool_decide (command a = lit "checksum") then
      if truthy (dest a) then
        filename <~ download checksum_url (default [] (dest a)) ;;
        _ <~ print (VStr filename) ;; ret 0
      else
        data <~ read checksum_url ;;
        text <~ lift (bytes_decode data) ;;
        _ <~ print (VStr (strip text)) ;; ret 0
    else if bool_decide (command a = lit "checksum_url") then
      _ <~ print checksum_url ;; ret 0
    else ret 0
  else ret 0.

(** [for release in releases[code]: ... else: ...], with the flag
    [match] of the source as [matched]. *)
Fixpoint release_loop (a : arguments) (matched : bool) (releases : list value)
    : M world Z :=
  match releases with
  | [] =>
      _ <~ print_stderr (VStr (lit "Could not find matching release")) ;;
      ret 1
  | release :: rest =>
      hit <~ lift (release_matches a release) ;;
      let matched := (if hit : bool then true else matched) in
      if matched then act_on_release a release
      else release_loop a matched rest
  end.

(** The objects of a decoded list, each at its own address. *)
Definition store_of (items : list value) : store :=
  fun l => nth l items VNone.

Definition main (a : arguments) : M world Z :=
  let code := str_upper (code a) in
  let params := [(lit "code", str_upper code);
                 (lit "type", lit "release");
                 (lit "latest", lit (if latest a then "true" else "false"))] in
  let url := JETBRAINS_BASE_URL ++ lit "?" ++ urlencode params in
  body <~ read (VStr url) ;;
  releases <~ lift (json_loads body) ;;
  if command_in (command a) [lit "version"; lit "build"] then
    of_code <~ lift (subscript releases (VStr code)) ;;
    first <~ lift (subscript of_code (VInt 0)) ;;
    found <~ lift (method_get first (command a)) ;;
    _ <~ print (default (VStr []) found) ;;
    ret 0
  else if command_in (command a)
            [lit "download"; lit "download_url"; lit "checksum";
             lit "checksum_url"] then
    of_code <~ lift (subscript releases (VStr code)) ;;
    items <~ lift (py_iter of_code) ;;
    release_loop a false items
  else if bool_decide (command a = lit "generate_whatsnew") then
    (* kwargs.get('name'): [name] is a parameter of [main] itself, so
       [kwargs] never holds it *)
    let product_name := VNone in
    of_code <~ lift (subscript releases (VStr code)) ;;
    items <~ lift (py_iter of_code) ;;
    output <~ lift (fst (generate_whatsnew product_name
                           (seq 0 (length items)) (store_of items))) ;;
    _ <~ print (VStr output) ;;
    ret 0
  else ret 0.

End Script.

(** ** Reference notions the properties are stated with *)

(** A digit of lowercase hexadecimal: [0-9a-f]. *)
Definition is_lower_hex (c : N) : bool :=
  ((48 <=? c) && (c <=? 57) || (97 <=? c) && (c <=? 102))%N.

(** The SHA-256 digest of a whole byte string, in lowercase hexadecimal. *)
Definition sha256_hexdigest (contents : list byte) : pystr :=
  SHA256.hex (SHA256.digest contents).

(** The bytes of an ASCII literal. *)
Definition bytes_of (s : string) : list byte :=
  List.map byte_of_ascii (list_ascii_of_string s).
Arguments bytes_of s%_string.

(** The field [key] of a release record. *)
Definition item (release : value) (key : pystr) : option value :=
  match release with
  | VDict d => dict_get key d
  | _ => None
  end.

Definition field (release : value) (key : string) : option value :=
  item release (lit key).
Arguments field release key%_string.

(** The notes of a release record are missing, null, empty or
    whitespace-only. *)
Definition notes_blank (release : value) : bool :=
  match release with
  | VDict _ =>
      match field release "whatsnew" with
      | None | Some VNone => true
      | Some (VStr s) => forallb isspace s
      | Some _ => false
      end
  | _ => false
  end.

(** The release as the renderer leaves it: blank notes replaced by the
    placeholder, nothing else touched. *)
Definition filled (release : value) : value :=
  match release with
  | VDict d =>
      if notes_blank release
      then VDict (dict_set (lit "whatsnew") (VStr WHATSNEW_EMPTY_NOTES) d)
      else release
  | _ => release
  end.

(** A release the renderer can render: a record with the four fields the
    entry template needs besides the notes, whose notes are absent, null
    or a string. *)
Definition renderable (release : value) : bool :=
  match release with
  | VDict _ =>
      forallb (fun key => bool_decide (is_Some (field release key)))
              ["version"; "build"; "date"; "notesLink"]%string
      && match field release "whatsnew" with
         | None | Some VNone | Some (VStr _) => true
         | Some _ => false
         end
  | _ => false
  end.

(** One article of the changelog. *)
Definition entry_html (version build date whatsnew notesLink : pystr) : pystr :=
  lit ("<article>" ++ nl ++ "<header>" ++ nl ++ "<h2 id=" ++ dq)
  ++ version ++ lit (dq ++ ">") ++ version ++ lit " (" ++ build
  ++ lit (")</h2>" ++ nl ++ "<span class=" ++ dq ++ "subtitle" ++ dq ++ ">")
  ++ date
  ++ lit ("</span>" ++ nl ++ "</header>" ++ nl ++ "<section>" ++ nl)
  ++ whatsnew
  ++ lit (nl ++ "</section>" ++ nl ++ "<footer>" ++ nl ++ "<a href=" ++ dq)
  ++ notesLink
  ++ lit (dq ++ ">Release Notes</a></div>" ++ nl ++ "</footer>" ++ nl
          ++ "</article>" ++ nl).

(** The page around the articles. *)
Definition page_html (product content : pystr) : pystr :=
  lit ("<!DOCTYPE html><html lang=" ++ dq ++ "en" ++ dq ++ ">" ++ nl
       ++ "<head>" ++ nl
       ++ "<meta charset=" ++ dq ++ "utf-8" ++ dq ++ ">" ++ nl
       ++ "<meta name=" ++ dq ++ "viewport" ++ dq ++ " content=" ++ dq
       ++ "width=device-width, initial-scale=1.0" ++ dq ++ ">" ++ nl
       ++ "<title>")
  ++ product
  ++ lit (" - What's New</title>" ++ nl
       ++ "<style>" ++ nl
       ++ "article header { margin-bottom: 1em; }" ++ nl
       ++ "article header h2 { margin-bottom: 0; }" ++ nl
       ++ "article:not(:last-child) { padding: 1em 0; border-bottom: 1px solid #ddd; }"
       ++ nl
       ++ "article section { margin-bottom: 1em; }" ++ nl
       ++ nl
       ++ ".subtitle { font-size: 0.9em; color: #666; margin-top: 0; }" ++ nl
       ++ "</style>" ++ nl
       ++ "<body>" ++ nl
       ++ "<h1>What's New in ")
  ++ product
  ++ lit ("</h1>" ++ nl)
  ++ content
  ++ lit (nl ++ "</body>" ++ nl ++ "</html>" ++ nl).

(** A later store holds each object as it was or as the renderer
    leaves it. *)
Definition touched (σ' σ : store) : Prop :=
  forall l, σ' l = σ l \/ (notes_blank (σ l) = true /\ σ' l = filled (σ l)).

Section Expected.
Context {L : PyLib}.

(** The article of a release: its fields through [str], its notes
    replaced by the placeholder when they are blank. *)
Definition expected_entry (release : value) : pystr :=
  let shown key := py_str (default VNone (field release key)) in
  entry_html (shown "version"%string) (shown "build"%string)
    (shown "date"%string)
    (if notes_blank release then WHATSNEW_EMPTY_NOTES
     else shown "whatsnew"%string)
    (shown "notesLink"%string).

End Expected.

(** The value of field [key] of a release is the string [wanted]. *)
Definition field_equals (release : value) (key : string)
    (wanted : option pystr) : bool :=
  match field release key, wanted with
  | Some (VStr s), Some t => bool_decide (s = t)
  | _, _ => false
  end.
Arguments field_equals release key%_string wanted.

(** A release record with a version and a build. *)
Definition has_version_and_build (release : value) : bool :=
  match field release "version", field release "build" with
  | Some _, Some _ => true
  | _, _ => false
  end.

(** The release meets the request: its version is the requested
    non-empty version, or its build the requested non-empty build. *)
Definition meets_criteria (a : arguments) (release : value) : bool :=
  truthy (version a) && field_equals release "version" (version a)
  || truthy (build a) && field_equals release "build" (build a).

(** The selection as the specification words it, where a version or a
    build counts as given as soon as it is passed, even empty. *)
Definition specified_selection (a : arguments) (releases : list value)
    : option value :=
  match version a, build a with
  | None, None => List.hd_error releases
  | _, _ =>
      List.find (fun release =>
                   field_equals release "version" (version a)
                   || field_equals release "build" (build a))
                releases
  end.

(** The four commands that select a release. *)
Definition selects (a : arguments) : bool :=
  command_in (command a)
    [lit "download"; lit "download_url"; lit "checksum"; lit "checksum_url"].

Section ScriptNotions.
Context {L : PyLib}.

(** The first release the test of the loop accepts, if the tests up to
    it all evaluate. *)
Fixpoint first_match (a : arguments) (releases : list value)
    : result (option value) :=
  match releases with
  | [] => Ok None
  | release :: rest =>
      hit <- release_matches a release ;;
      if hit : bool then Ok (Some release) else first_match a rest
  end.

(** The end of the loop without a [break]. *)
Definition no_match : M world Z :=
  _ <~ print_stderr (VStr (lit "Could not find matching release")) ;;
  ret 1.

(** The releases [main] iterates over: the answer of the service
    decoded, then the entry of the upper-cased product code. *)
Definition decoded_releases (a : arguments) (w : world)
    : result (list value) :=
  let code := str_upper (code a) in
  let params := [(lit "code", str_upper code);
                 (lit "type", lit "release");
                 (lit "latest", lit (if latest a then "true" else "false"))] in
  body <- http w (VStr (JETBRAINS_BASE_URL ++ lit "?" ++ urlencode params)) ;;
  releases <- json_loads body ;;
  of_code <- subscript releases (VStr code) ;;
  py_iter of_code.

(** The destination directory of the download command:
    [kwargs.get('dest') or '.']. *)
Definition download_dest (a : arguments) : pystr :=
  if truthy (dest a) then default [] (dest a) else lit ".".

(** The first token of the checksum resource of a release, read in
    world [w]. *)
Definition checksum_token (release : value) (w : world) : result pystr :=
  checksum_url <- linux_item release "checksumLink" ;;
  data <- http w checksum_url ;;
  text <- bytes_decode data ;;
  match split (strip text) with
  | token :: _ => Ok token
  | [] => Raise (IndexError (VList []))
  end.

End ScriptNotions.

(** What only the file system part of the world distinguishes. *)
Definition same_but_files (w' w : world) : Prop :=
  sys_imported w' = sys_imported w /\ http w' = http w
  /\ can_open w' = can_open w /\ stdout w' = stdout w /\ stderr w' = stderr w.

(** ** Further reference notions *)

Section MoreScriptNotions.
Context {L : PyLib}.

(** The answer of the releases service, decoded. *)
Definition service_answer (a : arguments) (w : world) : result value :=
  let code := str_upper (code a) in
  let params := [(lit "code", str_upper code);
                 (lit "type", lit "release");
                 (lit "latest", lit (if latest a then "true" else "false"))] in
  body <- http w (VStr (JETBRAINS_BASE_URL ++ lit "?" ++ urlencode params)) ;;
  json_loads body.

(** [releases[code]]: the entry of the upper-cased product code in the
    answer. *)
Definition product_entry (a : arguments) (w : world) : result value :=
  releases <- service_answer a w ;;
  subscript releases (VStr (str_upper (code a))).

End MoreScriptNotions.

(** The same call for another product code. *)
Definition with_code (c : pystr) (a : arguments) : arguments :=
  Args (command a) c (name a) (version a) (build a) (latest a) (dest a)
    (skip_validation a).

(** The world after [print(x)]. *)
Definition printed (x : value) (w : world) : world :=
  World (sys_imported w) (http w) (can_open w) (files w) (stdout w ++ [x])
    (stderr w).

(** The seven commands of the script. *)
Definition known_commands : list pystr :=
  [lit "version"; lit "build"; lit "download"; lit "download_url";
   lit "checksum"; lit "checksum_url"; lit "generate_whatsnew"].

(** ** Sample data *)

(** A release in the shape the releases service answers with; the links
    carry the build. *)
Definition sample_link (b : string) : pystr :=
  lit "https://host/ide/ide-" ++ lit b ++ lit ".tar.gz".
Arguments sample_link b%_string.

Definition sample_release (v b : string) : value :=
  VDict [(lit "version", VStr (lit v)); (lit "build", VStr (lit b));
         (lit "date", VStr (lit "2023-04-01"));
         (lit "notesLink", VStr (lit "https://host/notes"));
         (lit "whatsnew", VStr (lit " "));
         (lit "downloads",
          VDict [(lit "linux",
                  VDict [(lit "link", VStr (sample_link b));
                         (lit "checksumLink",
                          VStr (sample_link b ++ lit ".sha256"));
                         (lit "size", VInt 7)])])].
Arguments sample_release (v b)%_string.

Definition sample_document : value :=
  VDict [(lit "IC", VList [sample_release "2023.1" "1";
                           sample_release "2023.2" "2"])].

Definition sample_body : list byte := bytes_of "{IC: [2023.1, 2023.2]}".

(** The suffix of a string from its first slash on. *)
Fixpoint from_slash (s : pystr) : pystr :=
  match s with
  | [] => []
  | c :: s' => if (c =? slash)%N then s else from_slash s'
  end.

(** A stand-in for the standard library that knows one document, maps
    bytes to code points one to one and takes a URL's path to start at
    the first slash after [https://]. *)
Definition sample_lib : PyLib := {|
  py_repr := fun _ => lit "<object>";
  str_upper :=
    List.map (fun c => if ((97 <=? c) && (c <=? 122))%N then (c - 32)%N else c);
  urlencode :=
    fun params =>
      List.concat (List.map (fun kv => fst kv ++ lit "=" ++ snd kv ++ lit "&")
                     params);
  urlparse_path :=
    fun url =>
      match url with
      | VStr s => Ok (from_slash (drop 8 s))
      | _ => Raise (AttributeError url (lit "decode"))
      end;
  json_loads :=
    fun body =>
      if bool_decide (List.map Byte.to_N body = List.map Byte.to_N sample_body)
      then Ok sample_document
      else Raise (ValueError (lit "Expecting value"));
  bytes_decode := fun data => Ok (List.map Byte.to_N data)
|}.

(** A service that serves the document at the releases URL, the three
    bytes "abc" as both downloads, the digest of "abc" as the checksum
    of build 1 and the digest of the empty file as that of build 2. *)
Definition sample_http (url : value) : result (list byte) :=
  match url with
  | VStr s =>
      if bool_decide (take (length JETBRAINS_BASE_URL) s = JETBRAINS_BASE_URL)
      then Ok sample_body
      else if bool_decide (s = sample_link "1") || bool_decide (s = sample_link "2")
      then Ok (bytes_of "abc")
      else if bool_decide (s = sample_link "1" ++ lit ".sha256")
      then Ok (bytes_of
        "ba7816bf8f01cfea414140de5dae2223b00361a396177a9cb410ff61f20015ad *ide-1.tar.gz")
      else if bool_decide (s = sample_link "2" ++ lit ".sha256")
      then Ok (bytes_of
        "e3b0c44298fc1c149afbf4c8996fb92427ae41e4649b934ca495991b7852b855 *ide-2.tar.gz")
      else Raise (OSError (lit "HTTP Error 404"))
  | _ => Raise (OSError (lit "unknown url type"))
  end.

Definition sample_world : world :=
  World true sample_http (fun _ => true) (fun _ => None) [] [].

Definition sample_arguments (command : string) (version build : option pystr)
    : arguments :=
  Args (lit command) (lit "ic") None version build false None false.
Arguments sample_arguments command%_string version build.

(** A request for the empty version, and releases of which only the
    second has it. *)
Definition empty_version_request : arguments :=
  sample_arguments "download_url" (Some []) None.

Definition releases_with_empty_version : list value :=
  [sample_release "2023.1" "1"; sample_release "" "2"].

Definition sample_releases : list value :=
  [sample_release "2023.1" "1"; sample_release "2023.2" "2"].

(** ** More sample data *)

(** The sample world as a module that imported the script sees it. *)
Definition sample_world_without_sys : world :=
  World false sample_http (fun _ => true) (fun _ => None) [] [].

(** The world after the file of build [b] has been downloaded to the
    current directory. *)
Definition sample_downloaded (b : string) : world :=
  snd (download (L:=sample_lib) (VStr (sample_link b)) (lit ".") sample_world).
Arguments sample_downloaded b%_string.

(** The download of build 2 with validation skipped. *)
Definition sample_unvalidated : arguments :=
  Args (lit "download") (lit "ic") None None (Some (lit "2")) false None true.

(** The fields of a release record. *)
Definition fields_of (release : value) : pydict :=
  match release with
  | VDict d => d
  | _ => []
  end.


(** The sample library, for a service that answers with [document]. *)
Definition sample_lib_for (document : value) : PyLib := {|
  py_repr := py_repr (PyLib := sample_lib);
  str_upper := str_upper (PyLib := sample_lib);
  urlencode := urlencode (PyLib := sample_lib);
  urlparse_path := urlparse_path (PyLib := sample_lib);
  json_loads := fun _ => Ok document;
  bytes_decode := bytes_decode (PyLib := sample_lib)
|}.

(** A release without download links, and one without a version. *)
Definition release_without_links : value :=
  VDict [(lit "version", VStr (lit "2023.1")); (lit "build", VStr (lit "1"))].

Definition release_without_version : value :=
  VDict [(lit "build", VStr (lit "2"))].

(** * Properties *)

(** ** The nested accessor *)

Section Accessor.

Implicit Types (obj current leaf key d : value) (keys : list value)
  (default : option value) (exc : exn).

Lemma get_item_loop_walk current keys default :
  get_item_loop current keys default = caught (walk current keys) default.
Proof.
  revert current. induction keys as [|key keys IH]; intros current.
  - reflexivity.
  - simpl. destruct (subscript current key) as [v|exc]; simpl.
    + apply IH.
    + reflexivity.
Qed.

Lemma walk_app obj keys1 keys2 :
  walk obj (keys1 ++ keys2) = (v <- walk obj keys1 ;; walk v keys2).
Proof.
  revert obj. induction keys1 as [|key keys1 IH]; intros obj; simpl.
  - reflexivity.
  - destruct (subscript obj key) as [v|exc]; simpl; [apply IH | reflexivity].
Qed.

Lemma subscript_scalar obj key :
  is_mapping_or_sequence obj = false ->
  subscript obj key = Raise (TypeError (NotSubscriptable obj)).
Proof. destruct obj; simpl; intros H; try discriminate H; reflexivity. Qed.

(** C2. On a root that is a mapping or a sequence, [get_item] follows
    the key path one level per key.  If every step succeeds it returns
    the leaf reached, with or without a default.  If a step fails with a
    KeyError or an IndexError, that error is raised when no default was
    supplied and the default is returned when one was.  Conversely, a
    call that returns the supplied default either met such a failing
    step or reached a leaf that is the default itself. *)
Theorem get_item_leaf_default_or_raise obj keys :
  is_mapping_or_sequence obj = true ->
  (forall leaf, walk obj keys = Ok leaf ->
     forall default, get_item obj keys default = Ok leaf)
  /\ (forall exc, walk obj keys = Raise exc -> is_lookup_error exc = true ->
        get_item obj keys None = Raise exc
        /\ forall d, get_item obj keys (Some d) = Ok d)
  /\ (forall d, get_item obj keys (Some d) = Ok d ->
        (exists exc, walk obj keys = Raise exc /\ is_lookup_error exc = true)
        \/ walk obj keys = Ok d).
Proof.
  intros Hroot. unfold get_item. rewrite Hroot.
  split; [|split].
  - intros leaf Hw default. rewrite get_item_loop_walk, Hw. reflexivity.
  - intros exc Hw Hexc. rewrite !get_item_loop_walk, Hw. simpl. rewrite Hexc.
    split; [reflexivity | intros d; rewrite get_item_loop_walk, Hw; simpl].
    rewrite Hexc. reflexivity.
  - intros d. rewrite get_item_loop_walk.
    destruct (walk obj keys) as [leaf|exc]; simpl.
    + intros [= ->]. right. reflexivity.
    + destruct (is_lookup_error exc) eqn:E; [|discriminate].
      intros _. left. exists exc. split; [reflexivity | exact E].
Qed.

(** C8. A root that is neither a mapping nor a sequence is rejected with
    a TypeError whatever the key path and the default are: no key is
    consumed and no step is taken. *)
Theorem get_item_rejects_root obj keys default :
  is_mapping_or_sequence obj = false ->
  get_item obj keys default = Raise (TypeError (InvalidInstance obj)).
Proof. intros H. unfold get_item. rewrite H. reflexivity. Qed.

(** C10. Only the root is type-checked: when the path reaches, after
    [keys1], a value that is neither a mapping nor a sequence and still
    has a key to apply, the TypeError of subscripting that value reaches
    the caller, with or without a default. *)
Theorem get_item_inner_type_error obj keys1 key keys2 v default :
  is_mapping_or_sequence obj = true ->
  walk obj keys1 = Ok v ->
  is_mapping_or_sequence v = false ->
  get_item obj (keys1 ++ key :: keys2) default
  = Raise (TypeError (NotSubscriptable v)).
Proof.
  intros Hroot Hw Hv. unfold get_item. rewrite Hroot.
  rewrite get_item_loop_walk, walk_app, Hw. simpl.
  rewrite (subscript_scalar v key Hv). reflexivity.
Qed.

End Accessor.

Lemma get_item_leaf_default_or_raise_witness :
  get_item (sample_release "2023.1" "1")
    [VStr (lit "downloads"); VStr (lit "macos"); VStr (lit "link")] None
  = Raise (KeyError (VStr (lit "macos")))
  /\ get_item (sample_release "2023.1" "1")
       [VStr (lit "downloads"); VStr (lit "macos"); VStr (lit "link")]
       (Some VNone)
     = Ok VNone.
Proof.
  destruct (get_item_leaf_default_or_raise (sample_release "2023.1" "1")
              [VStr (lit "downloads"); VStr (lit "macos"); VStr (lit "link")]
              eq_refl) as (_ & Hfail & _).
  destruct (Hfail (KeyError (VStr (lit "macos"))) eq_refl eq_refl) as [H1 H2].
  split; [exact H1 | exact (H2 VNone)].
Defined.

Lemma get_item_rejects_root_witness :
  get_item (VInt 3) [VStr (lit "a")] (Some VNone)
  = Raise (TypeError (InvalidInstance (VInt 3))).
Proof. apply get_item_rejects_root. reflexivity. Defined.

Lemma get_item_inner_type_error_witness :
  get_item (sample_release "2023.1" "1")
    ([VStr (lit "downloads"); VStr (lit "linux"); VStr (lit "size")]
       ++ VStr (lit "unit") :: [])
    (Some VNone)
  = Raise (TypeError (NotSubscriptable (VInt 7))).
Proof. apply get_item_inner_type_error; reflexivity. Defined.

(** ** The checksum validator *)

Section Validator.

Lemma validate_loop_feeds fi h : validate_loop fi h = h ++ fi.
Proof.
  funelim (validate_loop fi h).
  - clear Heqcall. destruct fi; [|discriminate]. rewrite app_nil_r. reflexivity.
  - rewrite H. unfold update. rewrite <- E, <- app_assoc, take_drop. reflexivity.
Qed.

Lemma hexdigit_lower n : (n < 16)%N -> is_lower_hex (SHA256.hexdigit n) = true.
Proof.
  intros Hn. unfold SHA256.hexdigit, is_lower_hex.
  destruct (N.ltb_spec n 10).
  - apply orb_true_iff. left. apply andb_true_iff. split; apply N.leb_le; lia.
  - apply orb_true_iff. right. apply andb_true_iff. split; apply N.leb_le; lia.
Qed.

Lemma hex_lower bs : Forall (fun c => is_lower_hex c = true) (SHA256.hex bs).
Proof.
  unfold SHA256.hex. induction bs as [|b bs IH]; simpl.
  - constructor.
  - constructor; [|constructor; [|exact IH]];
      apply hexdigit_lower; apply N.mod_upper_bound; discriminate.
Qed.

Lemma hex_length bs : length (SHA256.hex bs) = (2 * length bs)%nat.
Proof.
  unfold SHA256.hex. induction bs as [|b bs IH]; simpl; [reflexivity | lia].
Qed.

(** C4. On a file that holds [contents], [validate] returns, leaves the
    world as it was, and answers true exactly when the candidate is,
    code point for code point, the SHA-256 digest of the whole contents
    written as 64 digits of lowercase hexadecimal; feeding the hash
    object 1024 bytes at a time gives the digest of the whole. *)
Theorem validate_iff_sha256 (w : world) (filename checksum_value : pystr)
    (contents : list byte) :
  files w filename = Some contents ->
  exists valid : bool,
    validate filename checksum_value w = (Ok valid, w)
    /\ (valid = true <-> checksum_value = sha256_hexdigest contents)
    /\ hexdigest (validate_loop contents hashlib_sha256)
       = sha256_hexdigest contents
    /\ length (sha256_hexdigest contents) = 64%nat
    /\ Forall (fun c => is_lower_hex c = true) (sha256_hexdigest contents).
Proof.
  intros Hfile.
  exists (bool_decide (checksum_value = sha256_hexdigest contents)).
  unfold validate. rewrite Hfile, validate_loop_feeds.
  change (hashlib_sha256 ++ contents) with contents.
  split; [reflexivity|]. split; [apply bool_decide_eq_true|].
  split; [reflexivity|]. split.
  - unfold sha256_hexdigest. rewrite hex_length. reflexivity.
  - apply hex_lower.
Qed.

End Validator.

(** ** The changelog renderer *)

Section DictLemmas.
Lemma dict_get_set_eq key v d : dict_get key (dict_set key v d) = Some v.
Proof.
  induction d as [|[k w] d IH]; simpl.
  - rewrite decide_True; reflexivity.
  - destruct (decide (k = key)) as [->|Hne]; simpl.
    + rewrite decide_True; reflexivity.
    + rewrite decide_False; [exact IH | exact Hne].
Qed.

Lemma dict_get_set_ne key key' v d :
  key <> key' -> dict_get key (dict_set key' v d) = dict_get key d.
Proof.
  intros Hne. induction d as [|[k w] d IH]; simpl.
  - rewrite decide_False; [reflexivity | congruence].
  - destruct (decide (k = key')) as [->|Hk]; simpl.
    + rewrite !decide_False; congruence.
    + destruct (decide (k = key)); [reflexivity | exact IH].
Qed.
End DictLemmas.

Section StripLemmas.
Lemma lstrip_nil s : lstrip s = [] <-> forallb isspace s = true.
Proof.
  induction s as [|c s IH]; simpl; [tauto|].
  destruct (isspace c); simpl; [exact IH | split; discriminate].
Qed.

Lemma lstrip_head s c s' : lstrip s = c :: s' -> isspace c = false.
Proof.
  induction s as [|a s IH]; simpl; [discriminate|].
  destruct (isspace a) eqn:E; [exact IH | intros [= <- _]; exact E].
Qed.

Lemma forallb_rev {A} (f : A -> bool) l : forallb f (rev l) = forallb f l.
Proof.
  induction l as [|a l IH]; simpl; [reflexivity|].
  rewrite forallb_app, IH. simpl. rewrite andb_true_r. apply andb_comm.
Qed.

Lemma strip_nil s : strip s = [] <-> forallb isspace s = true.
Proof.
  unfold strip, rstrip. split.
  - intros H. apply (f_equal (@rev N)) in H. rewrite rev_involutive in H.
    simpl in H. apply lstrip_nil in H. rewrite forallb_rev in H.
    destruct (lstrip s) as [|c s'] eqn:E; [apply lstrip_nil; exact E|].
    apply lstrip_head in E. simpl in H. rewrite E in H. discriminate.
  - intros H. apply lstrip_nil in H. rewrite H. reflexivity.
Qed.

Lemma strip_blank s : bool_decide (strip s = []) = forallb isspace s.
Proof.
  destruct (forallb isspace s) eqn:E.
  - apply bool_decide_eq_true, strip_nil, E.
  - apply bool_decide_eq_false. rewrite strip_nil, E. discriminate.
Qed.
End StripLemmas.

Section TemplateLemmas.
Context {L : PyLib}.

Lemma substitute_tokens_lits s ts m :
  substitute_tokens (List.map TLit s ++ ts) m
  = (rest <- substitute_tokens ts m ;; Ok (s ++ rest)).
Proof.
  induction s as [|c s IH]; simpl.
  - destruct (substitute_tokens ts m); reflexivity.
  - rewrite IH. destruct (substitute_tokens ts m); reflexivity.
Qed.

Lemma substitute_tokens_var name ts m v :
  dict_get name m = Some v ->
  substitute_tokens (TVar name :: ts) m
  = (rest <- substitute_tokens ts m ;; Ok (py_str v ++ rest)).
Proof. intros H. simpl. rewrite H. reflexivity. Qed.

Lemma entry_tokens :
  scan Text WHATSNEW_ENTRY_TEMPLATE
  = List.map TLit (lit ("<article>" ++ nl ++ "<header>" ++ nl ++ "<h2 id=" ++ dq))
    ++ TVar (lit "version") :: List.map TLit (lit (dq ++ ">"))
    ++ TVar (lit "version") :: List.map TLit (lit " (")
    ++ TVar (lit "build")
    :: List.map TLit (lit (")</h2>" ++ nl ++ "<span class=" ++ dq ++ "subtitle" ++ dq ++ ">"))
    ++ TVar (lit "date")
    :: List.map TLit (lit ("</span>" ++ nl ++ "</header>" ++ nl ++ "<section>" ++ nl))
    ++ TVar (lit "whatsnew")
    :: List.map TLit (lit (nl ++ "</section>" ++ nl ++ "<footer>" ++ nl ++ "<a href=" ++ dq))
    ++ TVar (lit "notesLink")
    :: List.map TLit (lit (dq ++ ">Release Notes</a></div>" ++ nl ++ "</footer>" ++ nl
          ++ "</article>" ++ nl)) ++ [].
Proof. vm_compute. reflexivity. Qed.

Lemma substitute_entry d version build date whatsnew notesLink :
  dict_get (lit "version") d = Some version ->
  dict_get (lit "build") d = Some build ->
  dict_get (lit "date") d = Some date ->
  dict_get (lit "whatsnew") d = Some whatsnew ->
  dict_get (lit "notesLink") d = Some notesLink ->
  substitute WHATSNEW_ENTRY_TEMPLATE d
  = Ok (entry_html (py_str version) (py_str build) (py_str date)
          (py_str whatsnew) (py_str notesLink)).
Proof.
  intros Hv Hb Hd Hw Hn. unfold substitute. rewrite entry_tokens.
  repeat first
    [ rewrite substitute_tokens_lits
    | rewrite (substitute_tokens_var _ _ _ _ Hv)
    | rewrite (substitute_tokens_var _ _ _ _ Hb)
    | rewrite (substitute_tokens_var _ _ _ _ Hd)
    | rewrite (substitute_tokens_var _ _ _ _ Hw)
    | rewrite (substitute_tokens_var _ _ _ _ Hn) ].
  cbn [substitute_tokens rbind]. rewrite app_nil_r. reflexivity.
Qed.
End TemplateLemmas.

Section TemplateFacts.
Context {L : PyLib}.

Lemma page_tokens :
  scan Text WHATSNEW_MAIN_TEMPLATE
  = List.map TLit (lit ("<!DOCTYPE html><html lang=" ++ dq ++ "en" ++ dq ++ ">" ++ nl
       ++ "<head>" ++ nl
       ++ "<meta charset=" ++ dq ++ "utf-8" ++ dq ++ ">" ++ nl
       ++ "<meta name=" ++ dq ++ "viewport" ++ dq ++ " content=" ++ dq
       ++ "width=device-width, initial-scale=1.0" ++ dq ++ ">" ++ nl
       ++ "<title>"))
    ++ TVar (lit "product")
    :: List.map TLit (lit (" - What's New</title>" ++ nl
       ++ "<style>" ++ nl
       ++ "article header { margin-bottom: 1em; }" ++ nl
       ++ "article header h2 { margin-bottom: 0; }" ++ nl
       ++ "article:not(:last-child) { padding: 1em 0; border-bottom: 1px solid #ddd; }"
       ++ nl
       ++ "article section { margin-bottom: 1em; }" ++ nl
       ++ nl
       ++ ".subtitle { font-size: 0.9em; color: #666; margin-top: 0; }" ++ nl
       ++ "</style>" ++ nl
       ++ "<body>" ++ nl
       ++ "<h1>What's New in "))
    ++ TVar (lit "product") :: List.map TLit (lit ("</h1>" ++ nl))
    ++ TVar (lit "content")
    :: List.map TLit (lit (nl ++ "</body>" ++ nl ++ "</html>" ++ nl)) ++ [].
Proof. vm_compute. reflexivity. Qed.

Lemma substitute_page name content :
  substitute WHATSNEW_MAIN_TEMPLATE
    [(lit "product", name); (lit "content", VStr content)]
  = Ok (page_html (py_str name) content).
Proof.
  unfold substitute. rewrite page_tokens.
  assert (Hp : dict_get (lit "product")
                 [(lit "product", name); (lit "content", VStr content)]
               = Some name) by reflexivity.
  assert (Hc : dict_get (lit "content")
                 [(lit "product", name); (lit "content", VStr content)]
               = Some (VStr content)) by reflexivity.
  repeat first
    [ rewrite substitute_tokens_lits
    | rewrite (substitute_tokens_var _ _ _ _ Hp)
    | rewrite (substitute_tokens_var _ _ _ _ Hc) ].
  cbn [substitute_tokens rbind py_str]. rewrite app_nil_r. reflexivity.
Qed.

Lemma substitute_tokens_missing ts m n :
  TInvalid ∉ ts -> TVar n ∈ ts -> dict_get n m = None ->
  exists key, substitute_tokens ts m = Raise (KeyError key).
Proof.
  intros Hvalid Hin Hmiss. induction ts as [|t ts IH]; [inversion Hin|].
  assert (Hts : TInvalid ∉ ts) by (intros H; apply Hvalid; right; exact H).
  destruct t as [c|name|]; simpl.
  - inversion Hin; subst. destruct (IH Hts H1) as [key ->]. eexists; reflexivity.
  - destruct (dict_get name m) as [v|] eqn:E; [|eexists; reflexivity].
    inversion Hin; subst; [congruence|].
    destruct (IH Hts H1) as [key ->]. eexists; reflexivity.
  - exfalso. apply Hvalid. left.
Qed.

Lemma placeholders_spec template n :
  n ∈ placeholders template <-> TVar n ∈ scan Text template.
Proof.
  unfold placeholders. rewrite list_elem_of_omap. split.
  - intros ([c|name|] & Hin & Heq); try discriminate. injection Heq as ->. exact Hin.
  - intros H. exists (TVar n). split; [exact H | reflexivity].
Qed.

Lemma entry_placeholders :
  placeholders WHATSNEW_ENTRY_TEMPLATE
  = List.map lit ["version"; "version"; "build"; "date"; "whatsnew"; "notesLink"]%string.
Proof. vm_compute. reflexivity. Qed.

Lemma entry_tokens_valid : TInvalid ∉ scan Text WHATSNEW_ENTRY_TEMPLATE.
Proof.
  assert (H : forallb (fun t => match t with TInvalid => false | _ => true end)
                (scan Text WHATSNEW_ENTRY_TEMPLATE) = true)
    by (vm_compute; reflexivity).
  intros Hin. rewrite forallb_forall in H.
  apply list_elem_of_In in Hin. apply H in Hin. discriminate.
Qed.
End TemplateFacts.

Section RendererStore.
Context {L : PyLib}.
Implicit Types (σ : store) (l : loc) (d : pydict).

Lemma notes_missing_blank d b :
  notes_missing (dict_get (lit "whatsnew") d) = Ok b -> b = notes_blank (VDict d).
Proof.
  unfold notes_blank, field, item.
  destruct (dict_get (lit "whatsnew") d) as [[]|]; simpl; intros [= <-];
    try reflexivity.
  apply strip_blank.
Qed.

(** What one pass of the loop body does, case by case. *)
Lemma render_release_dict l σ d :
  σ l = VDict d ->
  render_release l σ
  = match notes_missing (dict_get (lit "whatsnew") d) with
    | Raise e => (Raise e, σ)
    | Ok true =>
        let d' := dict_set (lit "whatsnew") (VStr WHATSNEW_EMPTY_NOTES) d in
        (substitute WHATSNEW_ENTRY_TEMPLATE d', <[l := VDict d']> σ)
    | Ok false => (substitute WHATSNEW_ENTRY_TEMPLATE d, σ)
    end.
Proof.
  intros Hl. unfold render_release, bind, load, lift, setitem, ret.
  rewrite Hl. simpl.
  destruct (notes_missing (dict_get (lit "whatsnew") d)) as [[|]|e]; simpl.
  - rewrite Hl. rewrite fn_lookup_insert. simpl.
    destruct (substitute _ _); reflexivity.
  - rewrite Hl. simpl. destruct (substitute _ _); reflexivity.
  - reflexivity.
Qed.

Lemma render_release_other l σ :
  (forall d, σ l <> VDict d) ->
  render_release l σ = (Raise (AttributeError (σ l) (lit "get")), σ).
Proof.
  intros Hl. unfold render_release, bind, load, lift. simpl.
  destruct (σ l) as [| | | | | |d]; try reflexivity. destruct (Hl d eq_refl).
Qed.

Lemma placeholder_not_blank : forallb isspace WHATSNEW_EMPTY_NOTES = false.
Proof. reflexivity. Qed.

Lemma notes_blank_filled v : notes_blank (filled v) = false.
Proof.
  destruct v as [| | | | | |d]; try reflexivity.
  unfold filled. destruct (notes_blank (VDict d)) eqn:E; [|exact E].
  unfold notes_blank, field, item. rewrite dict_get_set_eq. reflexivity.
Qed.

Lemma filled_unblank v : notes_blank v = false -> filled v = v.
Proof.
  destruct v as [| | | | | |d]; try reflexivity.
  unfold filled. intros ->. reflexivity.
Qed.

Lemma filled_idem v : filled (filled v) = filled v.
Proof. apply filled_unblank, notes_blank_filled. Qed.

Lemma item_filled_ne v key :
  key <> lit "whatsnew" -> item (filled v) key = item v key.
Proof.
  intros Hne. destruct v as [| | | | | |d]; try reflexivity.
  unfold filled. destruct (notes_blank (VDict d)); [|reflexivity].
  simpl. apply dict_get_set_ne, Hne.
Qed.

Lemma item_filled_eq v :
  notes_blank v = true ->
  item (filled v) (lit "whatsnew") = Some (VStr WHATSNEW_EMPTY_NOTES).
Proof.
  destruct v as [| | | | | |d]; try discriminate.
  intros H. unfold filled. rewrite H. simpl. apply dict_get_set_eq.
Qed.

(** The store after one pass of the loop body. *)
Lemma render_release_store l σ r σ1 :
  render_release l σ = (r, σ1) ->
  (σ1 = σ /\ forall x, r = Ok x -> notes_blank (σ l) = false)
  \/ (notes_blank (σ l) = true /\ σ1 = <[l := filled (σ l)]> σ).
Proof.
  destruct (σ l) as [| | | | | |d] eqn:Hl.
  1-6: rewrite render_release_other by (rewrite Hl; discriminate);
       intros [= <- <-]; left; split; [reflexivity | discriminate].
  rewrite (render_release_dict l σ d Hl).
  destruct (notes_missing (dict_get (lit "whatsnew") d)) as [b|e] eqn:E.
  - apply notes_missing_blank in E. subst b.
    destruct (notes_blank (VDict d)) eqn:Hb.
    + cbv zeta. intros [= <- <-]. right. split; [reflexivity|].
      unfold filled. rewrite Hb. reflexivity.
    + intros [= <- <-]. left. split; [reflexivity | reflexivity].
  - intros [= <- <-]. left. split; [reflexivity | discriminate].
Qed.

Lemma touched_refl σ : touched σ σ.
Proof. intros l. left. reflexivity. Qed.

Lemma touched_trans σ2 σ1 σ : touched σ2 σ1 -> touched σ1 σ -> touched σ2 σ.
Proof.
  intros H21 H10 l. destruct (H21 l) as [->|[Hb ->]]; [apply H10|].
  destruct (H10 l) as [E|[Hb0 E]]; rewrite E in *.
  - right. split; [exact Hb | reflexivity].
  - rewrite notes_blank_filled in Hb. discriminate.
Qed.

Lemma render_release_touched l σ r σ1 :
  render_release l σ = (r, σ1) ->
  touched σ1 σ /\ (forall l', l' <> l -> σ1 l' = σ l')
  /\ (forall x, r = Ok x -> σ1 l = filled (σ l)).
Proof.
  intros H. destruct (render_release_store _ _ _ _ H) as [[-> Hok]|[Hb ->]].
  - split; [apply touched_refl|]. split; [reflexivity|].
    intros x Hx. symmetry. apply filled_unblank, (Hok x Hx).
  - split; [|split].
    + intros l'. destruct (decide (l = l')) as [<-|Hne].
      * right. rewrite fn_lookup_insert. split; [exact Hb | reflexivity].
      * left. apply fn_lookup_insert_ne, Hne.
    + intros l' Hne. apply fn_lookup_insert_ne. congruence.
    + intros _ _. apply fn_lookup_insert.
Qed.

(** The store after the whole loop. *)
Lemma render_entries_store releases σ r σ' :
  render_entries releases σ = (r, σ') ->
  touched σ' σ
  /\ (forall l, l ∉ releases -> σ' l = σ l)
  /\ (forall x, r = Ok x -> forall l, l ∈ releases -> σ' l = filled (σ l)).
Proof.
  revert σ r σ'. induction releases as [|l0 rest IH]; intros σ r σ'; simpl.
  - intros [= <- <-]. split; [apply touched_refl|]. split; [reflexivity|].
    intros _ _ l Hl. inversion Hl.
  - unfold bind at 1. destruct (render_release l0 σ) as [r0 σ1] eqn:H0.
    destruct (render_release_touched _ _ _ _ H0) as (Ht0 & Hfr0 & Hok0).
    destruct r0 as [entry|e].
    + unfold bind at 1. destruct (render_entries rest σ1) as [r1 σ2] eqn:H1.
      destruct (IH _ _ _ H1) as (Ht1 & Hfr1 & Hok1).
      intros Hr. unfold ret in Hr.
      assert (σ' = σ2 /\ (forall x, r = Ok x -> exists y, r1 = Ok y)) as [-> Hr1].
      { destruct r1; injection Hr as <- <-; split; eauto; discriminate. }
      split; [exact (touched_trans _ _ _ Ht1 Ht0)|]. split.
      * intros l Hl. apply not_elem_of_cons in Hl as [Hne Hl].
        rewrite (Hfr1 l Hl). apply Hfr0, Hne.
      * intros x Hx l Hl. destruct (Hr1 x Hx) as [entries ->].
        destruct (decide (l ∈ rest)) as [Hin|Hout].
        -- rewrite (Hok1 _ eq_refl l Hin).
           destruct (Ht0 l) as [->|[_ ->]]; [reflexivity | apply filled_idem].
        -- apply elem_of_cons in Hl as [->|Hin]; [|contradiction].
           rewrite (Hfr1 l0 Hout). apply (Hok0 _ eq_refl).
    + intros [= <- <-]. split; [exact Ht0|]. split.
      * intros l Hl. apply not_elem_of_cons in Hl as [Hne _]. apply Hfr0, Hne.
      * discriminate.
Qed.
End RendererStore.

Section RendererMutation.
Context {L : PyLib}.
Implicit Types (σ : store) (l : loc) (d : pydict).

Lemma generate_whatsnew_unfold name releases σ :
  generate_whatsnew name releases σ
  = match render_entries releases σ with
    | (Ok entries, σ') => (Ok (page_html (py_str name) (List.concat entries)), σ')
    | (Raise e, σ') => (Raise e, σ')
    end.
Proof.
  unfold generate_whatsnew, bind, lift.
  destruct (render_entries releases σ) as [[entries|e] σ']; [|reflexivity].
  rewrite substitute_page. reflexivity.
Qed.

(** C9. [generate_whatsnew] changes the caller's release objects, and
    only in their notes: no object gets another field changed; an
    object outside the list, or whose notes are not blank, stays as it
    is; and when the call returns, every release of the list whose notes
    were missing, null, empty or whitespace-only holds the placeholder
    as its notes. *)
Theorem generate_whatsnew_fills_notes (name : value) (releases : list loc)
    (σ : store) :
  let σ' := snd (generate_whatsnew name releases σ) in
  (forall l key, key <> lit "whatsnew" -> item (σ' l) key = item (σ l) key)
  /\ (forall l, l ∉ releases \/ notes_blank (σ l) = false -> σ' l = σ l)
  /\ (forall page, fst (generate_whatsnew name releases σ) = Ok page ->
      forall l, l ∈ releases -> notes_blank (σ l) = true ->
      item (σ' l) (lit "whatsnew") = Some (VStr WHATSNEW_EMPTY_NOTES)).
Proof.
  rewrite generate_whatsnew_unfold.
  destruct (render_entries releases σ) as [r σ'] eqn:H.
  destruct (render_entries_store _ _ _ _ H) as (Ht & Hfr & Hok).
  assert (Hsnd : snd (match r with
                      | Ok entries =>
                          (Ok (page_html (py_str name) (List.concat entries)), σ')
                      | Raise e => (Raise e, σ')
                      end) = σ') by (destruct r; reflexivity).
  cbv zeta. rewrite Hsnd. split; [|split].
  - intros l key Hkey. destruct (Ht l) as [->|[_ ->]]; [reflexivity|].
    apply item_filled_ne, Hkey.
  - intros l [Hout|Hnb]; [apply Hfr, Hout|].
    destruct (Ht l) as [E|[Hb _]]; [exact E | congruence].
  - intros page Hpage l Hin Hb. destruct r as [entries|e]; [|discriminate].
    rewrite (Hok _ eq_refl l Hin). apply item_filled_eq, Hb.
Qed.
End RendererMutation.

Section RendererPage.
Context {L : PyLib}.
Implicit Types (σ : store) (l : loc) (d : pydict).

Lemma renderable_fields release :
  renderable release = true ->
  exists d version build date notesLink,
    release = VDict d
    /\ dict_get (lit "version") d = Some version
    /\ dict_get (lit "build") d = Some build
    /\ dict_get (lit "date") d = Some date
    /\ dict_get (lit "notesLink") d = Some notesLink
    /\ (notes_blank release = true
        \/ exists s, dict_get (lit "whatsnew") d = Some (VStr s)
                     /\ notes_blank release = false).
Proof.
  destruct release as [| | | | | |d]; try discriminate.
  unfold renderable, notes_blank, field, item. cbn [forallb].
  rewrite !andb_true_iff, !bool_decide_eq_true.
  intros [([v Hv] & [b Hb] & [dt Hd] & [n Hn] & _) Hw].
  exists d, v, b, dt, n. repeat (split; [first [reflexivity|assumption]|]).
  destruct (dict_get (lit "whatsnew") d) as [[]|]; try discriminate; auto.
  destruct (forallb isspace s) eqn:E; [left; reflexivity|].
  right. exists s. split; reflexivity.
Qed.

(** A renderable release renders, as its expected article. *)
Lemma render_release_renderable l σ :
  renderable (σ l) = true ->
  fst (render_release l σ) = Ok (expected_entry (σ l)).
Proof.
  intros Hr.
  destruct (renderable_fields _ Hr)
    as (d & v & b & dt & n & Hl & Hv & Hb & Hd & Hn & Hw).
  rewrite (render_release_dict l σ d Hl). rewrite Hl in Hw |- *.
  unfold expected_entry, field, item. rewrite Hv, Hb, Hd, Hn. cbn [default].
  destruct Hw as [Hblank|(s & Hs & Hblank)]; rewrite Hblank.
  - assert (Hm : notes_missing (dict_get (lit "whatsnew") d) = Ok true).
    { revert Hblank. unfold notes_blank, field, item.
      destruct (dict_get (lit "whatsnew") d) as [[]|]; try discriminate;
        try reflexivity.
      simpl. rewrite strip_blank. intros ->. reflexivity. }
    rewrite Hm. cbv zeta. cbn [fst].
    change WHATSNEW_EMPTY_NOTES with (py_str (VStr WHATSNEW_EMPTY_NOTES)) at 2.
    apply (substitute_entry _ v b dt (VStr WHATSNEW_EMPTY_NOTES) n);
      try (rewrite dict_get_set_ne by discriminate; assumption).
    apply dict_get_set_eq.
  - assert (Hm : notes_missing (dict_get (lit "whatsnew") d) = Ok false).
    { revert Hblank. unfold notes_blank, field, item. rewrite Hs. simpl.
      rewrite strip_blank. intros ->. reflexivity. }
    rewrite Hm, Hs. cbn [fst default].
    apply (substitute_entry _ v b dt (VStr s) n); assumption.
Qed.

Lemma renderable_filled v : renderable v = true -> renderable (filled v) = true.
Proof.
  intros Hr. destruct (notes_blank v) eqn:Hb;
    [|rewrite filled_unblank by exact Hb; exact Hr].
  destruct v as [| | | | | |d]; try discriminate.
  revert Hr. unfold filled. rewrite Hb.
  unfold renderable, field, item. cbn [forallb].
  rewrite !dict_get_set_ne by discriminate. rewrite dict_get_set_eq.
  rewrite !andb_true_iff. intros [H _]. split; [exact H | reflexivity].
Qed.

Lemma expected_entry_filled v : expected_entry (filled v) = expected_entry v.
Proof.
  destruct (notes_blank v) eqn:Hb; [|rewrite filled_unblank by exact Hb; reflexivity].
  unfold expected_entry. rewrite notes_blank_filled, Hb.
  unfold field.
  rewrite (item_filled_ne v (lit "version")), (item_filled_ne v (lit "build")),
    (item_filled_ne v (lit "date")), (item_filled_ne v (lit "notesLink"))
    by discriminate.
  rewrite (item_filled_eq v Hb). reflexivity.
Qed.

Lemma render_entries_renderable releases σ' σ :
  touched σ' σ ->
  Forall (fun l => renderable (σ l) = true) releases ->
  fst (render_entries releases σ')
  = Ok (List.map (fun l => expected_entry (σ l)) releases).
Proof.
  revert σ'. induction releases as [|l0 rest IH]; intros σ' Ht Hall; simpl.
  - reflexivity.
  - inversion Hall as [|x xs H0 Hrest]; subst x xs.
    assert (Hr0 : renderable (σ' l0) = true
                  /\ expected_entry (σ' l0) = expected_entry (σ l0)).
    { destruct (Ht l0) as [->|[_ ->]]; [split; [exact H0 | reflexivity]|].
      split; [apply renderable_filled, H0 | apply expected_entry_filled]. }
    destruct Hr0 as [Hr0 He0].
    pose proof (render_release_renderable l0 σ' Hr0) as Hfst.
    unfold bind at 1. destruct (render_release l0 σ') as [r0 σ1] eqn:E0.
    simpl in Hfst. subst r0.
    destruct (render_release_touched _ _ _ _ E0) as (Ht1 & _ & _).
    specialize (IH σ1 (touched_trans _ _ _ Ht1 Ht) Hrest).
    unfold bind at 1. destruct (render_entries rest σ1) as [r1 σ2].
    simpl in IH. subst r1. unfold ret. simpl. rewrite He0. reflexivity.
Qed.

Lemma generate_whatsnew_renderable (name : value) (releases : list loc)
    (σ : store) :
  Forall (fun l => renderable (σ l) = true) releases ->
  fst (generate_whatsnew name releases σ)
  = Ok (page_html (py_str name)
          (List.concat (List.map (fun l => expected_entry (σ l)) releases))).
Proof.
  intros Hall. rewrite generate_whatsnew_unfold.
  pose proof (render_entries_renderable releases σ σ (touched_refl σ) Hall) as H.
  destruct (render_entries releases σ) as [r σ']. simpl in H. subst r.
  reflexivity.
Qed.

(** C6. On releases that can be rendered, [generate_whatsnew] returns
    the page template filled with the product name and with the
    articles of the releases, concatenated in the order of the list; the
    article of a release whose notes are missing, null, empty or
    whitespace-only carries the placeholder as its notes. *)
Theorem generate_whatsnew_page (name : value) (releases : list loc) (σ : store) :
  Forall (fun l => renderable (σ l) = true) releases ->
  fst (generate_whatsnew name releases σ)
  = Ok (page_html (py_str name)
          (List.concat (List.map (fun l => expected_entry (σ l)) releases)))
  /\ forall l, l ∈ releases -> notes_blank (σ l) = true ->
     expected_entry (σ l)
     = entry_html (py_str (default VNone (field (σ l) "version")))
         (py_str (default VNone (field (σ l) "build")))
         (py_str (default VNone (field (σ l) "date")))
         WHATSNEW_EMPTY_NOTES
         (py_str (default VNone (field (σ l) "notesLink"))).
Proof.
  intros Hall. split.
  - apply generate_whatsnew_renderable, Hall.
  - intros l _ Hb. unfold expected_entry. rewrite Hb. reflexivity.
Qed.
End RendererPage.
Section RendererFields.
Context {L : PyLib}.
Implicit Types (σ : store) (l : loc) (d : pydict).

Lemma substitute_entry_missing d n :
  n ∈ placeholders WHATSNEW_ENTRY_TEMPLATE -> dict_get n d = None ->
  exists key, substitute WHATSNEW_ENTRY_TEMPLATE d = Raise (KeyError key).
Proof.
  intros Hn Hmiss. unfold substitute.
  apply (substitute_tokens_missing _ _ n); [apply entry_tokens_valid | | exact Hmiss].
  apply placeholders_spec, Hn.
Qed.

Lemma required_is_placeholder n :
  n ∈ List.map lit ["version"; "build"; "date"; "notesLink"]%string ->
  n ∈ placeholders WHATSNEW_ENTRY_TEMPLATE /\ n <> lit "whatsnew".
Proof.
  rewrite entry_placeholders, !list_elem_of_In. cbn [List.map In].
  intros [<-|[<-|[<-|[<-|[]]]]]; (split; [tauto | discriminate]).
Qed.

(** A release record that lacks a field the template needs besides the
    notes does not render, in whatever state its notes are. *)
Lemma render_release_missing l σ d n :
  σ l = VDict d ->
  n ∈ List.map lit ["version"; "build"; "date"; "notesLink"]%string ->
  dict_get n d = None ->
  exists e, fst (render_release l σ) = Raise e.
Proof.
  intros Hl Hn Hmiss. destruct (required_is_placeholder n Hn) as [Hp Hne].
  rewrite (render_release_dict l σ d Hl).
  destruct (notes_missing (dict_get (lit "whatsnew") d)) as [[|]|e].
  - destruct (substitute_entry_missing
                (dict_set (lit "whatsnew") (VStr WHATSNEW_EMPTY_NOTES) d) n Hp)
      as [key Hkey]; [rewrite dict_get_set_ne by exact Hne; exact Hmiss|].
    cbv zeta. cbn [fst]. rewrite Hkey. eexists; reflexivity.
  - destruct (substitute_entry_missing d n Hp Hmiss) as [key Hkey].
    cbn [fst]. rewrite Hkey. eexists; reflexivity.
  - eexists; reflexivity.
Qed.

Lemma render_entries_missing releases σ' σ l d n :
  touched σ' σ -> l ∈ releases -> σ l = VDict d ->
  n ∈ List.map lit ["version"; "build"; "date"; "notesLink"]%string ->
  dict_get n d = None ->
  exists e, fst (render_entries releases σ') = Raise e.
Proof.
  intros Ht Hin Hl Hn Hmiss. revert σ' Ht.
  induction releases as [|l0 rest IH]; intros σ' Ht; [inversion Hin|].
  simpl. unfold bind at 1.
  destruct (render_release l0 σ') as [[entry|e] σ1] eqn:E0;
    [|eexists; reflexivity].
  destruct (render_release_touched _ _ _ _ E0) as (Ht1 & _ & _).
  apply elem_of_cons in Hin as [<-|Hin].
  - exfalso.
    assert (exists d', σ' l = VDict d' /\ dict_get n d' = None) as (d' & Hl' & Hm').
    { destruct (Ht l) as [E|[Hb E]]; rewrite E, Hl.
      - exists d. split; [reflexivity | exact Hmiss].
      - unfold filled. rewrite Hl in Hb. rewrite Hb. eexists. split; [reflexivity|].
        rewrite dict_get_set_ne; [exact Hmiss|].
        apply (required_is_placeholder n Hn). }
    destruct (render_release_missing l σ' d' n Hl' Hn Hm') as [e He].
    rewrite E0 in He. discriminate.
  - destruct (IH Hin σ1 (touched_trans _ _ _ Ht1 Ht)) as [e He].
    unfold bind at 1. destruct (render_entries rest σ1) as [r1 σ2].
    simpl in He. subst r1. eexists; reflexivity.
Qed.

(** C7, as the code has it.  The entry template substitutes exactly the
    names version, build, date, whatsnew and notesLink, and substituting
    a mapping that lacks one of them raises a KeyError.  A release
    record that lacks version, build, date or notesLink therefore makes
    the renderer raise instead of returning a page.  A release that
    lacks only its notes does not: the renderer gives it the placeholder
    before it substitutes. *)
Theorem entry_template_fields :
  (forall n, n ∈ placeholders WHATSNEW_ENTRY_TEMPLATE
             <-> n ∈ List.map lit ["version"; "build"; "date"; "whatsnew";
                                   "notesLink"]%string)
  /\ (forall d n, n ∈ placeholders WHATSNEW_ENTRY_TEMPLATE ->
        dict_get n d = None ->
        exists key, substitute WHATSNEW_ENTRY_TEMPLATE d = Raise (KeyError key))
  /\ (forall name releases σ l d n,
        l ∈ releases -> σ l = VDict d ->
        n ∈ List.map lit ["version"; "build"; "date"; "notesLink"]%string ->
        dict_get n d = None ->
        exists e, fst (generate_whatsnew name releases σ) = Raise e)
  /\ (forall name releases σ,
        Forall (fun l => renderable (σ l) = true) releases ->
        exists page, fst (generate_whatsnew name releases σ) = Ok page).
Proof.
  split; [|split; [|split]].
  - intros n. rewrite entry_placeholders, !list_elem_of_In. cbn [List.map In].
    tauto.
  - apply substitute_entry_missing.
  - intros name releases σ l d n Hin Hl Hn Hmiss.
    rewrite generate_whatsnew_unfold.
    destruct (render_entries_missing releases σ σ l d n (touched_refl σ)
                Hin Hl Hn Hmiss) as [e He].
    destruct (render_entries releases σ) as [r σ']. simpl in He. subst r.
    eexists; reflexivity.
  - intros name releases σ Hall.
    eexists. apply generate_whatsnew_renderable, Hall.
Qed.
End RendererFields.

(** ** The release selector *)

Section Selector.
Context {L : PyLib}.
Implicit Types (a : arguments) (w : world) (release : value).

Lemma release_loop_first_match a releases w :
  release_loop a false releases w
  = match first_match a releases with
    | Ok (Some release) => act_on_release a release w
    | Ok None => no_match w
    | Raise e => (Raise e, w)
    end.
Proof.
  induction releases as [|release rest IH]; simpl; [reflexivity|].
  unfold bind at 1, lift.
  destruct (release_matches a release) as [[|]|e]; simpl;
    [reflexivity | exact IH | reflexivity].
Qed.

Lemma release_matches_any a release :
  truthy (version a) = false -> truthy (build a) = false ->
  release_matches a release = Ok true.
Proof. intros Hv Hb. unfold release_matches. rewrite Hv, Hb. reflexivity. Qed.

Lemma release_matches_criteria a release :
  has_version_and_build release = true ->
  truthy (version a) = true \/ truthy (build a) = true ->
  release_matches a release = Ok (meets_criteria a release).
Proof.
  unfold has_version_and_build, meets_criteria, field_equals, field, item.
  destruct release as [| | | | | |d]; try discriminate.
  destruct (dict_get (lit "version") d) as [v|] eqn:Hv; [|discriminate].
  destruct (dict_get (lit "build") d) as [b|] eqn:Hb; [|discriminate].
  intros _ Hc. unfold release_matches.
  assert (Hsv : subscript (VDict d) (VStr (lit "version")) = Ok v)
    by (simpl; rewrite Hv; reflexivity).
  assert (Hsb : subscript (VDict d) (VStr (lit "build")) = Ok b)
    by (simpl; rewrite Hb; reflexivity).
  rewrite Hsv, Hsb.
  destruct (truthy (version a)) eqn:Tv, (truthy (build a)) eqn:Tb; simpl.
  - unfold equals_str. destruct v, (version a), b, (build a); simpl;
      try reflexivity; try (destruct (bool_decide _); reflexivity).
  - unfold equals_str. destruct v, (version a); simpl; try reflexivity;
      destruct (bool_decide _); reflexivity.
  - unfold equals_str. destruct b, (build a); reflexivity.
  - destruct Hc; discriminate.
Qed.

Lemma first_match_any a releases :
  truthy (version a) = false -> truthy (build a) = false ->
  first_match a releases = Ok (List.hd_error releases).
Proof.
  intros Hv Hb. destruct releases as [|release rest]; simpl; [reflexivity|].
  rewrite (release_matches_any a release Hv Hb). reflexivity.
Qed.

Lemma first_match_criteria a releases :
  truthy (version a) = true \/ truthy (build a) = true ->
  Forall (fun release => has_version_and_build release = true) releases ->
  first_match a releases = Ok (List.find (meets_criteria a) releases).
Proof.
  intros Hc Hall. induction Hall as [|release rest Hr _ IH]; simpl; [reflexivity|].
  rewrite (release_matches_criteria a release Hr Hc). simpl.
  destruct (meets_criteria a release); [reflexivity | exact IH].
Qed.

(** C1, as the code has it.  With neither a non-empty version nor a
    non-empty build requested, the loop acts on the first release of the
    list.  Otherwise, on a list of release records with a version and a
    build, it acts on the first release whose version is the requested
    non-empty version or whose build is the requested non-empty build.
    It acts on that one release and no other; when there is no such
    release it acts on none and takes the no-match exit. *)
Theorem release_loop_selects_first a releases w :
  (truthy (version a) = false -> truthy (build a) = false ->
   release_loop a false releases w
   = match releases with
     | release :: _ => act_on_release a release w
     | [] => no_match w
     end)
  /\ (truthy (version a) = true \/ truthy (build a) = true ->
      Forall (fun release => has_version_and_build release = true) releases ->
      release_loop a false releases w
      = match List.find (meets_criteria a) releases with
        | Some release => act_on_release a release w
        | None => no_match w
        end).
Proof.
  split.
  - intros Hv Hb. rewrite release_loop_first_match, (first_match_any a _ Hv Hb).
    destruct releases; reflexivity.
  - intros Hc Hall.
    rewrite release_loop_first_match, (first_match_criteria a _ Hc Hall).
    reflexivity.
Qed.

End Selector.

(** ** Downloads *)

Section Downloads.
Context {L : PyLib}.
Implicit Types (a : arguments) (w : world) (release : value) (path : pystr).

Lemma download_loop_frame path urlfo w :
  same_but_files (download_loop path urlfo w) w.
Proof.
  funelim (download_loop path urlfo w).
  - repeat split.
  - destruct H as (H1 & H2 & H3 & H4 & H5). repeat split; assumption.
Qed.

Lemma download_loop_files path urlfo w :
  files (download_loop path urlfo w) path
  = match urlfo with
    | [] => files w path
    | _ => Some (default [] (files w path) ++ urlfo)
    end
  /\ forall other, other <> path ->
       files (download_loop path urlfo w) other = files w other.
Proof.
  funelim (download_loop path urlfo w).
  - clear Heqcall. destruct urlfo; [|discriminate]. split; reflexivity.
  - destruct H as [Hpath Hother].
    assert (Hne : urlfo <> []) by (intros ->; discriminate).
    split.
    + rewrite Hpath. destruct urlfo as [|b0 rest]; [contradiction|].
      destruct (drop 1024 (b0 :: rest)) eqn:Hd.
      * simpl. rewrite fn_lookup_insert. f_equal. f_equal.
        rewrite <- E. rewrite <- (take_drop 1024 (b0 :: rest)) at 2.
        rewrite Hd, app_nil_r. reflexivity.
      * simpl. rewrite fn_lookup_insert. cbn [default]. f_equal.
        unfold id. rewrite <- app_assoc. f_equal.
        rewrite <- Hd, <- E. apply take_drop.
    + intros other Hne'. rewrite (Hother other Hne'). simpl.
      apply fn_lookup_insert_ne. congruence.
Qed.

Lemma download_frame url destination w r w1 :
  download url destination w = (r, w1) -> same_but_files w1 w.
Proof.
  unfold download, bind, lift.
  destruct (get_url_filename url) as [filename|e];
    [|intros [= <- <-]; repeat split].
  destruct (can_open w (path_join destination filename));
    [|intros [= <- <-]; repeat split].
  cbn [http with_files].
  destruct (http w url) as [body|e]; intros [= <- <-].
  - destruct (download_loop_frame (path_join destination filename) body
                (with_files (<[path_join destination filename := Some []]> (files w)) w))
      as (H1 & H2 & H3 & H4 & H5).
    repeat split; assumption.
  - repeat split.
Qed.

(** A download that returns has written the whole body served at the
    URL to the path it returns, and to no other path. *)
Lemma download_ok url destination w output_file w1 :
  download url destination w = (Ok output_file, w1) ->
  exists filename body,
    get_url_filename url = Ok filename
    /\ output_file = path_join destination filename
    /\ can_open w output_file = true
    /\ http w url = Ok body
    /\ files w1 output_file = Some body
    /\ forall other, other <> output_file -> files w1 other = files w other.
Proof.
  unfold download, bind, lift.
  destruct (get_url_filename url) as [filename|e]; [|discriminate].
  destruct (can_open w (path_join destination filename)) eqn:Hopen;
    [|discriminate].
  cbn [http with_files].
  destruct (http w url) as [body|e]; [|discriminate].
  intros [= <- <-]. exists filename, body.
  destruct (download_loop_files (path_join destination filename) body
              (with_files (<[path_join destination filename := Some []]> (files w)) w))
    as [Hpath Hother].
  repeat split; try reflexivity; try assumption.
  - rewrite Hpath. cbn [files with_files]. rewrite fn_lookup_insert.
    destruct body; reflexivity.
  - intros other Hne. rewrite (Hother other Hne). cbn [files with_files].
    apply fn_lookup_insert_ne. congruence.
Qed.
End Downloads.

(** ** Exit statuses *)

Section ExitStatus.
Context {L : PyLib}.
Implicit Types (a : arguments) (w : world) (release : value).

Lemma validate_world filename token w : snd (validate filename token w) = w.
Proof. unfold validate. destruct (files w filename); reflexivity. Qed.

(** The download command with validation, step by step. *)
Lemma act_on_release_download a release w :
  command a = lit "download" -> skip_validation a = false ->
  act_on_release a release w
  = match linux_item release "link" with
    | Raise e => (Raise e, w)
    | Ok url =>
        match download url (download_dest a) w with
        | (Raise e, w1) => (Raise e, w1)
        | (Ok filename, w1) =>
            match checksum_token release w1 with
            | Raise e => (Raise e, w1)
            | Ok token =>
                match fst (validate filename token w1) with
                | Raise e => (Raise e, w1)
                | Ok true => (_ <~ print (VStr filename) ;; ret 0) w1
                | Ok false =>
                    (_ <~ print_stderr (VStr (lit "Checksum validation failed")) ;;
                     ret 2) w1
                end
            end
        end
    end.
Proof.
  intros Hc Hs. unfold act_on_release. rewrite Hc, Hs.
  change (command_in (lit "download") [lit "download"; lit "download_url"])
    with true.
  change (bool_decide (lit "download" = lit "download")) with true.
  cbn [negb]. unfold bind at 1, lift at 1.
  destruct (linux_item release "link") as [url|e]; [|reflexivity].
  unfold bind at 1. fold (download_dest a).
  destruct (download url (download_dest a) w) as [[filename|e] w1]; [|reflexivity].
  unfold checksum_token.
  unfold bind at 1, lift at 1.
  destruct (linux_item release "checksumLink") as [checksum_url|e]; [|reflexivity].
  unfold bind at 1, read. cbn [rbind].
  destruct (http w1 checksum_url) as [data|e]; [|reflexivity].
  unfold bind at 1, lift at 1. cbn [rbind].
  destruct (bytes_decode data) as [text|e]; [|reflexivity].
  unfold bind at 1, lift at 1. cbn [rbind].
  destruct (split (strip text)) as [|token rest]; [reflexivity|].
  unfold bind at 1.
  pose proof (validate_world filename token w1) as Hw.
  destruct (validate filename token w1) as [[[|]|e] w2]; simpl in Hw; subst w2;
    reflexivity.
Qed.


Lemma selects_not_query a :
  selects a = true ->
  command_in (command a) [lit "version"; lit "build"] = false.
Proof.
  unfold selects, command_in. intros H. apply bool_decide_eq_true in H.
  apply list_elem_of_In in H. cbn [In] in H.
  destruct H as [<-|[<-|[<-|[<-|[]]]]]; reflexivity.
Qed.

Lemma download_selects a : command a = lit "download" -> selects a = true.
Proof. unfold selects. intros ->. reflexivity. Qed.

Lemma main_selects a w :
  selects a = true ->
  main a w = match decoded_releases a w with
             | Ok items => release_loop a false items w
             | Raise e => (Raise e, w)
             end.
Proof.
  intros Hs. unfold main, decoded_releases.
  rewrite (selects_not_query a Hs). fold (selects a). rewrite Hs.
  unfold bind at 1, read. cbn zeta.
  destruct (http w _) as [body|e]; [|reflexivity]. cbn [rbind].
  unfold bind at 1, lift at 1.
  destruct (json_loads body) as [releases|e]; [|reflexivity]. cbn [rbind].
  unfold bind at 1, lift at 1.
  destruct (subscript releases _) as [of_code|e]; [|reflexivity]. cbn [rbind].
  unfold bind at 1, lift at 1.
  destruct (py_iter of_code) as [items|e]; reflexivity.
Qed.


Lemma no_match_run w :
  no_match w
  = if sys_imported w
    then (Ok 1, World (sys_imported w) (http w) (can_open w) (files w)
                  (stdout w)
                  (stderr w ++ [VStr (lit "Could not find matching release")]))
    else (Raise (NameError (lit "sys")), w).
Proof.
  unfold no_match, bind, print_stderr, ret.
  destruct (sys_imported w); reflexivity.
Qed.

(** The run of the download command whose validation fails. *)
Lemma main_checksum_failure a w items release url filename w1 token :
  sys_imported w = true ->
  command a = lit "download" -> skip_validation a = false ->
  decoded_releases a w = Ok items ->
  first_match a items = Ok (Some release) ->
  linux_item release "link" = Ok url ->
  download url (download_dest a) w = (Ok filename, w1) ->
  checksum_token release w1 = Ok token ->
  fst (validate filename token w1) = Ok false ->
  main a w
  = (Ok 2, World (sys_imported w1) (http w1) (can_open w1) (files w1)
             (stdout w1)
             (stderr w1 ++ [VStr (lit "Checksum validation failed")])).
Proof.
  intros Hsys Hc Hskip Hitems Hfirst Hurl Hdl Htoken Hvalid.
  rewrite (main_selects a w (download_selects a Hc)), Hitems.
  rewrite release_loop_first_match, Hfirst.
  rewrite (act_on_release_download a release w Hc Hskip), Hurl, Hdl, Htoken, Hvalid.
  unfold bind, print_stderr, ret.
  destruct (download_frame _ _ _ _ _ Hdl) as (Hs1 & _).
  rewrite Hs1, Hsys. reflexivity.
Qed.


(** C5. In a run of the script, when the download command has
    downloaded the file of the selected release and [validate] answers
    false for it, [main] returns 2 after adding the diagnostic to the
    error stream and nothing to the output; the file system is the one
    the download left, in which the downloaded file holds the whole body
    served at the download URL. *)
Theorem main_checksum_failure_keeps_file
    a w items release url filename w1 token :
  sys_imported w = true ->
  command a = lit "download" -> skip_validation a = false ->
  decoded_releases a w = Ok items ->
  first_match a items = Ok (Some release) ->
  linux_item release "link" = Ok url ->
  download url (download_dest a) w = (Ok filename, w1) ->
  checksum_token release w1 = Ok token ->
  fst (validate filename token w1) = Ok false ->
  fst (main a w) = Ok 2
  /\ stderr (snd (main a w))
     = stderr w ++ [VStr (lit "Checksum validation failed")]
  /\ stdout (snd (main a w)) = stdout w
  /\ files (snd (main a w)) = files w1
  /\ exists body, http w url = Ok body /\ files w1 filename = Some body.
Proof.
  intros Hsys Hc Hskip Hitems Hfirst Hurl Hdl Htoken Hvalid.
  rewrite (main_checksum_failure a w items release url filename w1 token
             Hsys Hc Hskip Hitems Hfirst Hurl Hdl Htoken Hvalid).
  destruct (download_frame _ _ _ _ _ Hdl) as (_ & _ & _ & Hout & Herr).
  destruct (download_ok _ _ _ _ _ Hdl)
    as (name & body & _ & _ & _ & Hbody & Hfile & _).
  cbn [fst snd stderr stdout files]. rewrite Hout, Herr.
  repeat split. exists body. split; assumption.
Qed.
End ExitStatus.

(** ** The properties on the sample data *)

Lemma validate_iff_sha256_witness :
  validate (lit "ide-1.tar.gz")
    (lit "ba7816bf8f01cfea414140de5dae2223b00361a396177a9cb410ff61f20015ad")
    (with_files (<[lit "ide-1.tar.gz" := Some (bytes_of "abc")]> (files sample_world))
       sample_world)
  = (Ok true,
     with_files (<[lit "ide-1.tar.gz" := Some (bytes_of "abc")]> (files sample_world))
       sample_world).
Proof.
  destruct (validate_iff_sha256
              (with_files (<[lit "ide-1.tar.gz" := Some (bytes_of "abc")]>
                             (files sample_world)) sample_world)
              (lit "ide-1.tar.gz")
              (lit "ba7816bf8f01cfea414140de5dae2223b00361a396177a9cb410ff61f20015ad")
              (bytes_of "abc") eq_refl)
    as (valid & Hrun & Hiff & _).
  rewrite Hrun. f_equal. f_equal. apply Hiff. vm_compute. reflexivity.
Defined.

Lemma generate_whatsnew_page_witness :
  fst (generate_whatsnew (L:=sample_lib) (VStr (lit "IDEA")) [0%nat; 1%nat]
         (store_of [sample_release "2023.1" "1"; sample_release "2023.2" "2"]))
  = Ok (page_html (lit "IDEA")
          (entry_html (lit "2023.1") (lit "1") (lit "2023-04-01")
             WHATSNEW_EMPTY_NOTES (lit "https://host/notes")
           ++ entry_html (lit "2023.2") (lit "2") (lit "2023-04-01")
             WHATSNEW_EMPTY_NOTES (lit "https://host/notes"))).
Proof.
  destruct (generate_whatsnew_page (L:=sample_lib) (VStr (lit "IDEA"))
              [0%nat; 1%nat]
              (store_of [sample_release "2023.1" "1"; sample_release "2023.2" "2"]))
    as [Hpage _].
  - repeat constructor.
  - rewrite Hpage. vm_compute. reflexivity.
Defined.

Lemma generate_whatsnew_fills_notes_witness :
  item (snd (generate_whatsnew (L:=sample_lib) VNone [0%nat]
               (store_of [sample_release "2023.1" "1"])) 0%nat)
       (lit "whatsnew")
  = Some (VStr WHATSNEW_EMPTY_NOTES).
Proof.
  destruct (generate_whatsnew_fills_notes (L:=sample_lib) VNone [0%nat]
              (store_of [sample_release "2023.1" "1"])) as (_ & _ & Hfill).
  eapply Hfill.
  - vm_compute. reflexivity.
  - apply list_elem_of_here.
  - reflexivity.
Defined.

(** A release with every field of the entry template but its notes. *)
Lemma entry_template_fields_counterexample :
  field (VDict [(lit "version", VStr (lit "2023.1"));
                (lit "build", VStr (lit "1"));
                (lit "date", VStr (lit "2023-04-01"));
                (lit "notesLink", VStr (lit "https://host/notes"))])
        "whatsnew" = None
  /\ fst (generate_whatsnew (L:=sample_lib) (VStr (lit "IDEA")) [0%nat]
            (store_of [VDict [(lit "version", VStr (lit "2023.1"));
                              (lit "build", VStr (lit "1"));
                              (lit "date", VStr (lit "2023-04-01"));
                              (lit "notesLink", VStr (lit "https://host/notes"))]]))
     = Ok (page_html (lit "IDEA")
             (entry_html (lit "2023.1") (lit "1") (lit "2023-04-01")
                WHATSNEW_EMPTY_NOTES (lit "https://host/notes"))).
Proof. split; vm_compute; reflexivity. Qed.

Lemma entry_template_fields_witness :
  exists e,
    fst (generate_whatsnew (L:=sample_lib) (VStr (lit "IDEA")) [0%nat]
           (store_of [VDict [(lit "version", VStr (lit "2023.1"));
                             (lit "build", VStr (lit "1"));
                             (lit "notesLink", VStr (lit "https://host/notes"))]]))
    = Raise e.
Proof.
  destruct (entry_template_fields (L:=sample_lib)) as (_ & _ & Hmissing & _).
  eapply (Hmissing _ _ _ 0%nat _ (lit "date")).
  - apply list_elem_of_here.
  - reflexivity.
  - apply list_elem_of_In. cbn. tauto.
  - reflexivity.
Defined.

(** The empty version is passed, the code takes it for no request and
    prints the link of the first release; the selection as specified is
    the second release, whose link is another. *)
Lemma release_loop_selects_first_counterexample :
  specified_selection empty_version_request releases_with_empty_version
  = Some (sample_release "" "2")
  /\ release_loop (L:=sample_lib) empty_version_request false
       releases_with_empty_version sample_world
     = act_on_release (L:=sample_lib) empty_version_request
         (sample_release "2023.1" "1") sample_world
  /\ stdout (snd (release_loop (L:=sample_lib) empty_version_request false
                    releases_with_empty_version sample_world))
     = [VStr (sample_link "1")]
  /\ stdout (snd (act_on_release (L:=sample_lib) empty_version_request
                    (sample_release "" "2") sample_world))
     = [VStr (sample_link "2")]
  /\ sample_link "1" <> sample_link "2".
Proof.
  split; [reflexivity|]. split; [reflexivity|]. split; [reflexivity|].
  split; [reflexivity | discriminate].
Qed.

Lemma release_loop_selects_first_witness :
  release_loop (L:=sample_lib)
    (sample_arguments "download_url" None (Some (lit "2"))) false
    sample_releases sample_world
  = act_on_release (L:=sample_lib)
      (sample_arguments "download_url" None (Some (lit "2")))
      (sample_release "2023.2" "2") sample_world.
Proof.
  destruct (release_loop_selects_first (L:=sample_lib)
              (sample_arguments "download_url" None (Some (lit "2")))
              sample_releases sample_world) as [_ Hcriteria].
  rewrite Hcriteria; [reflexivity | right; reflexivity | repeat constructor].
Defined.


Lemma main_checksum_failure_keeps_file_witness :
  fst (main (L:=sample_lib)
         (sample_arguments "download" None (Some (lit "2"))) sample_world)
  = Ok 2
  /\ stderr (snd (main (L:=sample_lib)
                    (sample_arguments "download" None (Some (lit "2")))
                    sample_world))
     = [VStr (lit "Checksum validation failed")]
  /\ files (snd (main (L:=sample_lib)
                   (sample_arguments "download" None (Some (lit "2")))
                   sample_world)) (lit "./ide-2.tar.gz")
     = Some (bytes_of "abc").
Proof.
  destruct (main_checksum_failure_keeps_file (L:=sample_lib)
              (sample_arguments "download" None (Some (lit "2"))) sample_world
              sample_releases (sample_release "2023.2" "2")
              (VStr (sample_link "2")) (lit "./ide-2.tar.gz")
              (snd (download (L:=sample_lib) (VStr (sample_link "2")) (lit ".")
                      sample_world))
              (lit "e3b0c44298fc1c149afbf4c8996fb92427ae41e4649b934ca495991b7852b855"))
    as (Hstatus & Herr & _ & Hfiles & body & Hbody & Hfile);
    try (vm_compute; reflexivity).
  split; [exact Hstatus|]. split; [exact Herr|].
  rewrite Hfiles, Hfile. f_equal.
  assert (Hserved : Ok body = Ok (bytes_of "abc")) by (rewrite <- Hbody; reflexivity).
  injection Hserved as ->. reflexivity.
Defined.

(** * Further properties *)

(** ** Downloading *)

Section DownloadProperties.
Context {L : PyLib}.
Implicit Types (a : arguments) (w : world) (release : value).

Lemma basename_from_no_slash acc p :
  slash ∉ acc -> slash ∉ basename_from acc p.
Proof.
  revert acc. induction p as [|c p IH]; intros acc Hacc; simpl.
  - intros H. apply Hacc. apply list_elem_of_In. apply list_elem_of_In in H.
    apply in_rev. exact H.
  - destruct (N.eqb_spec c slash) as [->|Hne].
    + apply IH. apply not_elem_of_nil.
    + apply IH. apply not_elem_of_cons. split; [congruence | exact Hacc].
Qed.

Lemma path_join_prefix destination filename :
  (forall c rest, filename = c :: rest -> c <> slash) ->
  destination `prefix_of` path_join destination filename.
Proof.
  intros Hhead. unfold path_join. destruct filename as [|c rest].
  - destruct (ends_with_slash destination || bool_decide (destination = []));
      [reflexivity | apply prefix_app_r; reflexivity].
  - destruct (N.eqb_spec c slash) as [->|_]; [destruct (Hhead _ _ eq_refl eq_refl)|].
    destruct (ends_with_slash destination || bool_decide (destination = []));
      apply prefix_app_r; reflexivity.
Qed.

(** X1. A download that returns has written the whole body served at
    the URL to the path it returns, whatever that path held before; the
    path is the destination joined with a name that has no slash, so it
    lies under the destination; no other file, and nothing else of the
    world, has changed. *)
Theorem download_writes_body url destination w output_file w1 :
  download url destination w = (Ok output_file, w1) ->
  (exists filename body,
     (slash ∉ filename)
     /\ output_file = path_join destination filename
     /\ destination `prefix_of` output_file
     /\ http w url = Ok body
     /\ files w1 output_file = Some body)
  /\ (forall other, other <> output_file -> files w1 other = files w other)
  /\ same_but_files w1 w.
Proof.
  intros Hdl.
  destruct (download_ok _ _ _ _ _ Hdl)
    as (filename & body & Hname & -> & _ & Hbody & Hfile & Hother).
  split; [|split; [exact Hother | exact (download_frame _ _ _ _ _ Hdl)]].
  exists filename, body.
  assert (Hslash : slash ∉ filename).
  { unfold get_url_filename in Hname.
    destruct (urlparse_path url) as [path|e]; [|discriminate].
    injection Hname as <-. apply basename_from_no_slash, not_elem_of_nil. }
  repeat split; try assumption.
  apply path_join_prefix. intros c rest -> ->. apply Hslash, list_elem_of_here.
Qed.

(** X2. The output file is opened before the URL: when the file can be
    opened and the request then fails, the download raises the error of
    the request and leaves an empty file at the output path, whatever
    that path held before. *)
Theorem download_failure_leaves_empty_file url destination w filename e :
  get_url_filename url = Ok filename ->
  can_open w (path_join destination filename) = true ->
  http w url = Raise e ->
  fst (download url destination w) = Raise e
  /\ files (snd (download url destination w)) (path_join destination filename)
     = Some []
  /\ forall other, other <> path_join destination filename ->
       files (snd (download url destination w)) other = files w other.
Proof.
  intros Hname Hopen Hfail. unfold download, bind, lift.
  rewrite Hname, Hopen. cbn [http with_files]. rewrite Hfail.
  cbn [fst snd files with_files]. split; [reflexivity|]. split.
  - apply fn_lookup_insert.
  - intros other Hne. apply fn_lookup_insert_ne. congruence.
Qed.

(** X3. Download and validation compose: on the file a download has
    just written, [validate] answers true exactly for the SHA-256
    digest, in lowercase hexadecimal, of the body served. *)
Theorem validate_after_download url destination w output_file w1 token :
  download url destination w = (Ok output_file, w1) ->
  exists body,
    http w url = Ok body
    /\ validate output_file token w1
       = (Ok (bool_decide (token = sha256_hexdigest body)), w1).
Proof.
  intros Hdl.
  destruct (download_ok _ _ _ _ _ Hdl)
    as (filename & body & _ & _ & _ & Hbody & Hfile & _).
  exists body. split; [exact Hbody|].
  unfold validate. rewrite Hfile, validate_loop_feeds. reflexivity.
Qed.

End DownloadProperties.

(** ** The commands of [main] *)

Section CommandProperties.
Context {L : PyLib}.
Implicit Types (a : arguments) (w : world) (release : value).

Lemma decoded_releases_entry a w :
  decoded_releases a w = (of_code <- product_entry a w ;; py_iter of_code).
Proof.
  unfold decoded_releases, product_entry, service_answer. cbn zeta.
  destruct (http w _) as [body|e]; [|reflexivity]. cbn [rbind].
  destruct (json_loads body) as [releases|e]; reflexivity.
Qed.

(** [main] up to the dispatch on the command. *)
Lemma main_entry a w :
  main a w
  = if command_in (command a) [lit "version"; lit "build"] then
      match product_entry a w with
      | Raise e => (Raise e, w)
      | Ok of_code =>
          (first <~ lift (subscript of_code (VInt 0)) ;;
           found <~ lift (method_get first (command a)) ;;
           _ <~ print (default (VStr []) found) ;;
           ret 0) w
      end
    else if selects a then
      match product_entry a w with
      | Raise e => (Raise e, w)
      | Ok of_code =>
          (items <~ lift (py_iter of_code) ;; release_loop a false items) w
      end
    else if bool_decide (command a = lit "generate_whatsnew") then
      match product_entry a w with
      | Raise e => (Raise e, w)
      | Ok of_code =>
          (items <~ lift (py_iter of_code) ;;
           output <~ lift (fst (generate_whatsnew VNone (seq 0 (length items))
                                  (store_of items))) ;;
           _ <~ print (VStr output) ;;
           ret 0) w
      end
    else
      match service_answer a w with
      | Raise e => (Raise e, w)
      | Ok _ => (Ok 0, w)
      end.
Proof.
  unfold main, product_entry, service_answer, selects. cbn zeta.
  unfold bind at 1, read.
  destruct (http w _) as [body|e]; cbn [rbind].
  - unfold bind at 1, lift at 1.
    destruct (json_loads body) as [releases|e]; cbn [rbind].
    + destruct (command_in (command a) [lit "version"; lit "build"]).
      { unfold bind at 1, lift at 1.
        destruct (subscript releases _); reflexivity. }
      destruct (command_in (command a) _).
      { unfold bind at 1, lift at 1.
        destruct (subscript releases _); reflexivity. }
      destruct (bool_decide (command a = lit "generate_whatsnew")).
      { unfold bind at 1, lift at 1.
        destruct (subscript releases _); reflexivity. }
      reflexivity.
    + repeat (destruct (command_in _ _) || destruct (bool_decide _));
        reflexivity.
  - repeat (destruct (command_in _ _) || destruct (bool_decide _));
      reflexivity.
Qed.

(** X4. The version and build commands print that field of the first
    release of the product code, or the empty string when the release
    record lacks it, and return 0; nothing else of the world changes. *)
Theorem main_prints_latest_field a w d rest :
  command a = lit "version" \/ command a = lit "build" ->
  product_entry a w = Ok (VList (VDict d :: rest)) ->
  main a w
  = (Ok 0, printed (default (VStr []) (dict_get (command a) d)) w).
Proof.
  intros Hc Hentry. rewrite main_entry, Hentry.
  assert (Hq : command_in (command a) [lit "version"; lit "build"] = true)
    by (destruct Hc as [-> | ->]; reflexivity).
  rewrite Hq. reflexivity.
Qed.

(** X5. A product code the answer of the service does not hold is not a
    "no matching release": each of the seven commands raises the
    KeyError of [releases[code]] and changes nothing. *)
Theorem main_unknown_product_code a w d :
  command a ∈ known_commands ->
  service_answer a w = Ok (VDict d) ->
  dict_get (str_upper (code a)) d = None ->
  main a w = (Raise (KeyError (VStr (str_upper (code a)))), w).
Proof.
  intros Hc Hanswer Hmiss.
  assert (Hentry : product_entry a w
                   = Raise (KeyError (VStr (str_upper (code a))))).
  { unfold product_entry. rewrite Hanswer. simpl. rewrite Hmiss. reflexivity. }
  rewrite main_entry, Hentry. unfold selects.
  apply list_elem_of_In in Hc. cbn [known_commands In] in Hc.
  destruct Hc as [<-|[<-|[<-|[<-|[<-|[<-|[<-|[]]]]]]]]; reflexivity.
Qed.

(** X6. A command that is none of the seven still makes the request and
    decodes the answer, then returns 0 without printing or changing
    anything. *)
Theorem main_unknown_command a w releases :
  command a ∉ known_commands ->
  service_answer a w = Ok releases ->
  main a w = (Ok 0, w).
Proof.
  intros Hc Hfetch. rewrite main_entry, Hfetch.
  assert (Hn : forall names, (forall n, n ∈ names -> n ∈ known_commands) ->
                 command_in (command a) names = false).
  { intros names Hsub. apply bool_decide_eq_false. intros H. apply Hc, Hsub, H. }
  rewrite Hn.
  2:{ intros n H. apply list_elem_of_In in H. apply list_elem_of_In.
      cbn [known_commands In] in *. tauto. }
  unfold selects. rewrite Hn.
  2:{ intros n H. apply list_elem_of_In in H. apply list_elem_of_In.
      cbn [known_commands In] in *. tauto. }
  rewrite bool_decide_eq_false_2; [reflexivity|].
  intros H. apply Hc. rewrite H. apply list_elem_of_In.
  cbn [known_commands In]. tauto.
Qed.

End CommandProperties.

Section MoreCommandProperties.
Context {L : PyLib}.
Implicit Types (a : arguments) (w : world) (release : value).

Lemma map_store_of {B} (f : value -> B) (items : list value) :
  List.map (fun l => f (store_of items l)) (seq 0 (length items))
  = List.map f items.
Proof.
  unfold store_of. induction items as [|x items IH]; [reflexivity|].
  cbn [length seq List.map nth]. f_equal.
  rewrite <- seq_shift, List.map_map. exact IH.
Qed.

Lemma Forall_store_of (P : value -> Prop) (items : list value) :
  Forall P items ->
  Forall (fun l => P (store_of items l)) (seq 0 (length items)).
Proof.
  unfold store_of. induction 1 as [|x items Hx _ IH]; [constructor|].
  cbn [length seq]. constructor; [exact Hx|].
  rewrite <- seq_shift. apply Forall_map. exact IH.
Qed.

(** X7. The changelog command never shows the product name it was
    given: [name] is a parameter of [main] itself, so [kwargs.get('name')]
    is [None], and the page printed for renderable releases is the one
    of product "None", whatever [name] is. *)
Theorem main_changelog_product_is_none a w items :
  command a = lit "generate_whatsnew" ->
  product_entry a w = Ok (VList items) ->
  Forall (fun release => renderable release = true) items ->
  main a w
  = (Ok 0,
     printed (VStr (page_html (lit "None")
                      (List.concat (List.map expected_entry items)))) w).
Proof.
  intros Hc Hentry Hall. rewrite main_entry, Hentry, Hc.
  change (command_in (lit "generate_whatsnew") [lit "version"; lit "build"])
    with false.
  change (selects a) with
    (command_in (command a) [lit "download"; lit "download_url";
                             lit "checksum"; lit "checksum_url"]).
  rewrite Hc.
  change (command_in (lit "generate_whatsnew") _) with false.
  change (bool_decide (lit "generate_whatsnew" = lit "generate_whatsnew"))
    with true.
  cbn iota. unfold bind at 1, lift at 1. cbn [py_iter].
  unfold bind at 1, lift at 1.
  rewrite (generate_whatsnew_renderable VNone (seq 0 (length items))
             (store_of items) (Forall_store_of _ items Hall)).
  rewrite (map_store_of expected_entry items). reflexivity.
Qed.


(** The download command without validation, step by step. *)
Lemma act_on_release_unvalidated a release w :
  command a = lit "download" -> skip_validation a = true ->
  act_on_release a release w
  = match linux_item release "link" with
    | Raise e => (Raise e, w)
    | Ok url =>
        match download url (download_dest a) w with
        | (Raise e, w1) => (Raise e, w1)
        | (Ok filename, w1) => (Ok 0, printed (VStr filename) w1)
        end
    end.
Proof.
  intros Hc Hs. unfold act_on_release. rewrite Hc, Hs.
  change (command_in (lit "download") [lit "download"; lit "download_url"])
    with true.
  change (bool_decide (lit "download" = lit "download")) with true.
  cbn [negb]. unfold bind at 1, lift at 1.
  destruct (linux_item release "link") as [url|e]; [|reflexivity].
  unfold bind at 1. fold (download_dest a).
  destruct (download url (download_dest a) w) as [[filename|e] w1]; reflexivity.
Qed.

(** X8. With validation skipped, the download command never reads the
    checksum resource: once the file of the selected release is
    downloaded it prints the path and returns 0, so a wrong or missing
    checksum goes unnoticed. *)
Theorem main_skip_validation a w items release url filename w1 :
  command a = lit "download" -> skip_validation a = true ->
  decoded_releases a w = Ok items ->
  first_match a items = Ok (Some release) ->
  linux_item release "link" = Ok url ->
  download url (download_dest a) w = (Ok filename, w1) ->
  main a w = (Ok 0, printed (VStr filename) w1).
Proof.
  intros Hc Hskip Hitems Hfirst Hurl Hdl.
  rewrite (main_selects a w (download_selects a Hc)), Hitems.
  rewrite release_loop_first_match, Hfirst.
  rewrite (act_on_release_unvalidated a release w Hc Hskip), Hurl, Hdl.
  reflexivity.
Qed.

(** X9. [sys] is imported in the [__main__] block only.  When [main] is
    called from a module that imported the script, the no-match exit
    raises NameError instead of printing the diagnostic and returning 1. *)
Theorem main_no_match_without_sys a w items :
  sys_imported w = false ->
  selects a = true ->
  decoded_releases a w = Ok items ->
  first_match a items = Ok None ->
  main a w = (Raise (NameError (lit "sys")), w).
Proof.
  intros Hsys Hs Hitems Hfirst.
  rewrite (main_selects a w Hs), Hitems, release_loop_first_match, Hfirst.
  rewrite no_match_run, Hsys. reflexivity.
Qed.

(** X10. Likewise a failed validation: the download is made, then the
    diagnostic raises NameError instead of being printed, and the
    status 2 is not returned; the world is the one the download left. *)
Theorem main_checksum_failure_without_sys
    a w items release url filename w1 token :
  sys_imported w = false ->
  command a = lit "download" -> skip_validation a = false ->
  decoded_releases a w = Ok items ->
  first_match a items = Ok (Some release) ->
  linux_item release "link" = Ok url ->
  download url (download_dest a) w = (Ok filename, w1) ->
  checksum_token release w1 = Ok token ->
  fst (validate filename token w1) = Ok false ->
  main a w = (Raise (NameError (lit "sys")), w1).
Proof.
  intros Hsys Hc Hskip Hitems Hfirst Hurl Hdl Htoken Hvalid.
  rewrite (main_selects a w (download_selects a Hc)), Hitems.
  rewrite release_loop_first_match, Hfirst.
  rewrite (act_on_release_download a release w Hc Hskip), Hurl, Hdl, Htoken, Hvalid.
  unfold bind, print_stderr.
  destruct (download_frame _ _ _ _ _ Hdl) as (Hs1 & _).
  rewrite Hs1, Hsys. reflexivity.
Qed.

Lemma release_loop_with_code c a matched releases w :
  release_loop (with_code c a) matched releases w
  = release_loop a matched releases w.
Proof.
  revert matched w. induction releases as [|release rest IH]; intros matched w;
    [reflexivity|].
  cbn [release_loop].
  change (release_matches (with_code c a) release)
    with (release_matches a release).
  change (act_on_release (with_code c a) release)
    with (act_on_release a release).
  unfold bind, lift.
  destruct (release_matches a release) as [[|]|e]; try reflexivity.
  destruct matched; [reflexivity | apply IH].
Qed.

(** X11. The product code is upper-cased before it is used: when
    upper-casing the code a second time changes nothing more, the call
    with the upper-cased code is the same call. *)
Theorem main_code_case a w :
  str_upper (str_upper (code a)) = str_upper (code a) ->
  main (with_code (str_upper (code a)) a) w = main a w.
Proof.
  intros Hidem. rewrite !main_entry.
  assert (Hanswer : service_answer (with_code (str_upper (code a)) a) w
                    = service_answer a w).
  { unfold service_answer. cbn [code latest with_code]. rewrite !Hidem.
    reflexivity. }
  assert (Hentry : product_entry (with_code (str_upper (code a)) a) w
                   = product_entry a w).
  { unfold product_entry. rewrite Hanswer. cbn [code with_code].
    rewrite Hidem. reflexivity. }
  rewrite Hanswer, Hentry.
  change (command (with_code (str_upper (code a)) a)) with (command a).
  change (selects (with_code (str_upper (code a)) a)) with (selects a).
  destruct (command_in (command a) [lit "version"; lit "build"]);
    [reflexivity|].
  destruct (selects a); [|reflexivity].
  destruct (product_entry a w) as [of_code|e]; [|reflexivity].
  unfold bind, lift. destruct (py_iter of_code) as [items|e]; [|reflexivity].
  apply release_loop_with_code.
Qed.

End MoreCommandProperties.

(** ** More on the accessor, the checksum resource and the renderer *)

Section AccessorComposition.
Implicit Types (obj v : value) (keys : list value) (default : option value).

(** X12. Paths compose: when a first path leads, without default, to a
    mapping or a sequence, following a second path from the root after
    the first is following it from the value reached. *)
Theorem get_item_path_app obj keys1 keys2 v default :
  get_item obj keys1 None = Ok v ->
  is_mapping_or_sequence v = true ->
  get_item obj (keys1 ++ keys2) default = get_item v keys2 default.
Proof.
  unfold get_item. destruct (is_mapping_or_sequence obj); [|discriminate].
  intros H1 Hv. rewrite Hv. rewrite !get_item_loop_walk in *.
  rewrite walk_app.
  destruct (walk obj keys1) as [v'|e]; simpl in H1.
  - injection H1 as ->. reflexivity.
  - destruct (is_lookup_error e); discriminate.
Qed.
End AccessorComposition.

Section ChecksumToken.
Context {L : PyLib}.

Lemma lstrip_decompose s :
  exists ws, forallb isspace ws = true /\ s = ws ++ lstrip s.
Proof.
  induction s as [|c s (ws & Hws & Hs)]; [exists []; split; reflexivity|].
  simpl. destruct (isspace c) eqn:Hc.
  - exists (c :: ws). simpl. rewrite Hc, Hws. split; [reflexivity|].
    f_equal. exact Hs.
  - exists []. split; reflexivity.
Qed.

Lemma rstrip_decompose s :
  exists ws, forallb isspace ws = true /\ s = rstrip s ++ ws.
Proof.
  destruct (lstrip_decompose (rev s)) as (ws & Hws & Hs).
  exists (rev ws). rewrite forallb_rev. split; [exact Hws|].
  unfold rstrip. rewrite <- rev_app_distr, <- Hs, rev_involutive. reflexivity.
Qed.

Lemma split_from_spaces_l ws s :
  forallb isspace ws = true -> split_from [] (ws ++ s) = split_from [] s.
Proof.
  induction ws as [|c ws IH]; simpl; [reflexivity|].
  destruct (isspace c); [exact IH | discriminate].
Qed.

Lemma split_from_spaces word ws :
  forallb isspace ws = true ->
  split_from word ws = match word with [] => [] | _ => [rev word] end.
Proof.
  revert word. induction ws as [|c ws IH]; intros word Hws; [reflexivity|].
  simpl in Hws |- *. destruct (isspace c); [|discriminate].
  rewrite (IH [] Hws). destruct word; reflexivity.
Qed.

Lemma split_from_spaces_r word s ws :
  forallb isspace ws = true ->
  split_from word (s ++ ws) = split_from word s.
Proof.
  intros Hws. revert word. induction s as [|c s IH]; intros word.
  - simpl. apply split_from_spaces, Hws.
  - simpl. rewrite !IH. reflexivity.
Qed.

(** Splitting ignores what stripping removes. *)
Lemma split_strip s : split (strip s) = split s.
Proof.
  unfold split, strip.
  destruct (lstrip_decompose s) as (ws1 & Hws1 & Hs1).
  destruct (rstrip_decompose (lstrip s)) as (ws2 & Hws2 & Hs2).
  rewrite Hs1 at 2. rewrite (split_from_spaces_l ws1 _ Hws1).
  rewrite Hs2 at 2. rewrite (split_from_spaces_r [] _ ws2 Hws2). reflexivity.
Qed.

Lemma split_from_word word token tail :
  forallb (fun c => negb (isspace c)) token = true ->
  split_from word (token ++ tail) = split_from (rev token ++ word) tail.
Proof.
  revert word. induction token as [|c token IH]; intros word Htoken;
    [reflexivity|].
  simpl in Htoken. apply andb_true_iff in Htoken as [Hc Htoken].
  simpl. destruct (isspace c); [discriminate|].
  rewrite (IH (c :: word) Htoken), <- app_assoc. reflexivity.
Qed.

(** X13. Of the checksum resource only the first token counts: when the
    text decoded from it is, after optional whitespace, a word followed
    by nothing or by a whitespace character and anything else (a file
    name, as [sha256sum] writes it), the checksum compared is that
    word. *)
Theorem checksum_token_first_word release w url data pre token tail :
  linux_item release "checksumLink" = Ok url ->
  http w url = Ok data ->
  bytes_decode data = Ok (pre ++ token ++ tail) ->
  forallb isspace pre = true ->
  token <> [] ->
  forallb (fun c => negb (isspace c)) token = true ->
  match tail with [] => True | c :: _ => isspace c = true end ->
  checksum_token release w = Ok token.
Proof.
  intros Hurl Hdata Htext Hpre Hne Htoken Htail.
  unfold checksum_token. rewrite Hurl. cbn [rbind]. rewrite Hdata. cbn [rbind].
  rewrite Htext. cbn [rbind]. rewrite split_strip. unfold split.
  rewrite (split_from_spaces_l pre _ Hpre), (split_from_word [] token tail Htoken).
  rewrite app_nil_r.
  destruct token as [|t0 token]; [contradiction|].
  destruct tail as [|c tail].
  - cbn [split_from].
    destruct (rev (t0 :: token)) eqn:E.
    + apply (f_equal (@length N)) in E. rewrite length_rev in E. discriminate.
    + rewrite <- E, rev_involutive. reflexivity.
  - cbn [split_from]. rewrite Htail.
    destruct (rev (t0 :: token)) eqn:E.
    + apply (f_equal (@length N)) in E. rewrite length_rev in E. discriminate.
    + rewrite <- E, rev_involutive. reflexivity.
Qed.
End ChecksumToken.

Section RendererAgain.
Context {L : PyLib}.
Implicit Types (σ : store) (l : loc) (d : pydict).

(** X14. Rendering is repeatable: after a call on renderable releases,
    a second call on the same list returns the same page and leaves
    every object as the first call left it. *)
Theorem generate_whatsnew_again (name : value) (releases : list loc) σ :
  Forall (fun l => renderable (σ l) = true) releases ->
  fst (generate_whatsnew name releases
         (snd (generate_whatsnew name releases σ)))
  = fst (generate_whatsnew name releases σ)
  /\ forall l,
       snd (generate_whatsnew name releases
              (snd (generate_whatsnew name releases σ))) l
       = snd (generate_whatsnew name releases σ) l.
Proof.
  intros Hall.
  pose proof (generate_whatsnew_renderable name releases σ Hall) as Hpage.
  pose proof (generate_whatsnew_unfold name releases σ) as G1.
  destruct (render_entries releases σ) as [r σ1] eqn:H1.
  destruct (render_entries_store _ _ _ _ H1) as (Ht1 & Hfr1 & Hok1).
  rewrite G1 in Hpage. destruct r as [entries|e]; [|discriminate].
  rewrite G1. cbn [fst snd]. cbn [fst] in Hpage.
  assert (Hall1 : Forall (fun l => renderable (σ1 l) = true) releases).
  { apply Forall_forall. intros l Hl. rewrite Forall_forall in Hall.
    destruct (Ht1 l) as [->|[_ ->]];
      [|apply renderable_filled]; apply Hall, Hl. }
  split.
  - rewrite (generate_whatsnew_renderable name releases σ1 Hall1), Hpage.
    do 3 f_equal. apply List.map_ext. intros l.
    destruct (Ht1 l) as [->|[_ ->]];
      [reflexivity | apply expected_entry_filled].
  - intros l. rewrite generate_whatsnew_unfold.
    destruct (render_entries releases σ1) as [r2 σ2] eqn:H2.
    destruct (render_entries_store _ _ _ _ H2) as (Ht2 & Hfr2 & _).
    assert (Hl : σ2 l = σ1 l).
    { destruct (decide (l ∈ releases)) as [Hin|Hout]; [|apply Hfr2, Hout].
      destruct (Ht2 l) as [E|[Hb _]]; [exact E|].
      rewrite (Hok1 _ eq_refl l Hin), notes_blank_filled in Hb. discriminate. }
    destruct r2; exact Hl.
Qed.

End RendererAgain.

(** ** The further properties on the sample data *)

Lemma download_writes_body_witness :
  files (sample_downloaded "1") (lit "./ide-1.tar.gz") = Some (bytes_of "abc")
  /\ same_but_files (sample_downloaded "1") sample_world.
Proof.
  destruct (download_writes_body (L:=sample_lib) (VStr (sample_link "1"))
              (lit ".") sample_world (lit "./ide-1.tar.gz")
              (sample_downloaded "1"))
    as ((filename & body & _ & _ & _ & Hbody & Hfile) & _ & Hframe).
  - vm_compute. reflexivity.
  - split; [|exact Hframe]. rewrite Hfile. f_equal.
    assert (Hserved : Ok body = Ok (bytes_of "abc"))
      by (rewrite <- Hbody; reflexivity).
    injection Hserved as ->. reflexivity.
Defined.

Lemma download_failure_leaves_empty_file_witness :
  fst (download (L:=sample_lib) (VStr (lit "https://host/ide/gone.tar.gz"))
         (lit "out") sample_world)
  = Raise (OSError (lit "HTTP Error 404"))
  /\ files (snd (download (L:=sample_lib)
                   (VStr (lit "https://host/ide/gone.tar.gz")) (lit "out")
                   sample_world)) (lit "out/gone.tar.gz")
     = Some [].
Proof.
  destruct (download_failure_leaves_empty_file (L:=sample_lib)
              (VStr (lit "https://host/ide/gone.tar.gz")) (lit "out")
              sample_world (lit "gone.tar.gz")
              (OSError (lit "HTTP Error 404")))
    as (Hraise & Hfile & _); try reflexivity.
  split; [exact Hraise | exact Hfile].
Defined.

Lemma validate_after_download_witness :
  validate (lit "./ide-1.tar.gz")
    (lit "ba7816bf8f01cfea414140de5dae2223b00361a396177a9cb410ff61f20015ad")
    (sample_downloaded "1")
  = (Ok true, sample_downloaded "1").
Proof.
  destruct (validate_after_download (L:=sample_lib) (VStr (sample_link "1"))
              (lit ".") sample_world (lit "./ide-1.tar.gz")
              (sample_downloaded "1")
              (lit "ba7816bf8f01cfea414140de5dae2223b00361a396177a9cb410ff61f20015ad"))
    as (body & Hbody & Hvalid).
  - vm_compute. reflexivity.
  - rewrite Hvalid. f_equal. f_equal.
    assert (Hserved : Ok body = Ok (bytes_of "abc"))
      by (rewrite <- Hbody; reflexivity).
    injection Hserved as ->. vm_compute. reflexivity.
Defined.

Lemma main_prints_latest_field_witness :
  main (L:=sample_lib) (sample_arguments "version" None None) sample_world
  = (Ok 0, printed (VStr (lit "2023.1")) sample_world).
Proof.
  rewrite (main_prints_latest_field (L:=sample_lib)
             (sample_arguments "version" None None) sample_world
             (fields_of (sample_release "2023.1" "1"))
             [sample_release "2023.2" "2"]).
  - reflexivity.
  - left. reflexivity.
  - vm_compute. reflexivity.
Defined.

Lemma main_unknown_product_code_witness :
  main (L:=sample_lib)
    (with_code (lit "zz") (sample_arguments "download" None None)) sample_world
  = (Raise (KeyError (VStr (lit "ZZ"))), sample_world).
Proof.
  apply (main_unknown_product_code (L:=sample_lib)
           (with_code (lit "zz") (sample_arguments "download" None None))
           sample_world (fields_of sample_document)).
  - apply list_elem_of_In. cbn. tauto.
  - vm_compute. reflexivity.
  - reflexivity.
Defined.

Lemma main_unknown_command_witness :
  main (L:=sample_lib) (sample_arguments "latest" None None) sample_world
  = (Ok 0, sample_world).
Proof.
  apply (main_unknown_command (L:=sample_lib)
           (sample_arguments "latest" None None) sample_world sample_document).
  - intros H. apply list_elem_of_In in H. cbn in H.
    repeat (destruct H as [H|H]; [discriminate H|]). exact H.
  - vm_compute. reflexivity.
Defined.

Lemma main_changelog_product_is_none_witness :
  main (L:=sample_lib)
    (Args (lit "generate_whatsnew") (lit "ic") (Some (lit "IDEA")) None None
       false None false) sample_world
  = (Ok 0,
     printed (VStr (page_html (lit "None")
                      (List.concat (List.map (expected_entry (L:=sample_lib))
                                      sample_releases)))) sample_world).
Proof.
  apply (main_changelog_product_is_none (L:=sample_lib)).
  - reflexivity.
  - vm_compute. reflexivity.
  - repeat constructor.
Defined.

Lemma main_skip_validation_witness :
  main (L:=sample_lib) sample_unvalidated sample_world
  = (Ok 0, printed (VStr (lit "./ide-2.tar.gz")) (sample_downloaded "2")).
Proof.
  apply (main_skip_validation (L:=sample_lib) sample_unvalidated sample_world
           sample_releases (sample_release "2023.2" "2")
           (VStr (sample_link "2")));
    vm_compute; reflexivity.
Defined.

Lemma main_no_match_without_sys_witness :
  main (L:=sample_lib)
    (sample_arguments "checksum_url" (Some (lit "2022.3")) None)
    sample_world_without_sys
  = (Raise (NameError (lit "sys")), sample_world_without_sys).
Proof.
  apply (main_no_match_without_sys (L:=sample_lib) _ _ sample_releases);
    vm_compute; reflexivity.
Defined.

Lemma main_checksum_failure_without_sys_witness :
  fst (main (L:=sample_lib)
         (sample_arguments "download" None (Some (lit "2")))
         sample_world_without_sys)
  = Raise (NameError (lit "sys")).
Proof.
  rewrite (main_checksum_failure_without_sys (L:=sample_lib)
             (sample_arguments "download" None (Some (lit "2")))
             sample_world_without_sys
             sample_releases (sample_release "2023.2" "2")
             (VStr (sample_link "2")) (lit "./ide-2.tar.gz")
             (snd (download (L:=sample_lib) (VStr (sample_link "2")) (lit ".")
                     sample_world_without_sys))
             (lit "e3b0c44298fc1c149afbf4c8996fb92427ae41e4649b934ca495991b7852b855"));
    vm_compute; reflexivity.
Defined.

Lemma main_code_case_witness :
  main (L:=sample_lib)
    (with_code (lit "IC") (sample_arguments "build" None None)) sample_world
  = main (L:=sample_lib) (sample_arguments "build" None None) sample_world.
Proof.
  apply (main_code_case (L:=sample_lib) (sample_arguments "build" None None)).
  reflexivity.
Defined.

Lemma get_item_path_app_witness :
  get_item (sample_release "2023.1" "1")
    ([VStr (lit "downloads")] ++ [VStr (lit "linux"); VStr (lit "link")]) None
  = get_item
      (VDict [(lit "linux",
               VDict [(lit "link", VStr (sample_link "1"));
                      (lit "checksumLink", VStr (sample_link "1" ++ lit ".sha256"));
                      (lit "size", VInt 7)])])
      [VStr (lit "linux"); VStr (lit "link")] None.
Proof. apply get_item_path_app; reflexivity. Defined.

Lemma checksum_token_first_word_witness :
  checksum_token (L:=sample_lib) (sample_release "2023.1" "1") sample_world
  = Ok (lit "ba7816bf8f01cfea414140de5dae2223b00361a396177a9cb410ff61f20015ad").
Proof.
  apply (checksum_token_first_word (L:=sample_lib) (sample_release "2023.1" "1")
           sample_world (VStr (sample_link "1" ++ lit ".sha256"))
           (bytes_of
              "ba7816bf8f01cfea414140de5dae2223b00361a396177a9cb410ff61f20015ad *ide-1.tar.gz")
           []
           (lit "ba7816bf8f01cfea414140de5dae2223b00361a396177a9cb410ff61f20015ad")
           (lit " *ide-1.tar.gz"));
    try (vm_compute; reflexivity).
  discriminate.
Defined.

Lemma generate_whatsnew_again_witness :
  fst (generate_whatsnew (L:=sample_lib) VNone [0%nat; 1%nat]
         (snd (generate_whatsnew (L:=sample_lib) VNone [0%nat; 1%nat]
                 (store_of sample_releases))))
  = fst (generate_whatsnew (L:=sample_lib) VNone [0%nat; 1%nat]
           (store_of sample_releases)).
Proof.
  apply (generate_whatsnew_again (L:=sample_lib) VNone [0%nat; 1%nat]
           (store_of sample_releases)).
  repeat constructor.
Defined.


(** ** Links of the selected release *)

Section LinkProperties.
Context {L : PyLib}.
Implicit Types (a : arguments) (w : world) (release : value).

(** X16. The URL commands only print: for the selected release,
    [download_url] prints its download link and [checksum_url] its
    checksum link, both return 0, and no file is written and no further
    request made. *)
Theorem main_prints_link a w items release url :
  decoded_releases a w = Ok items ->
  first_match a items = Ok (Some release) ->
  (command a = lit "download_url" /\ linux_item release "link" = Ok url)
  \/ (command a = lit "checksum_url"
      /\ linux_item release "checksumLink" = Ok url) ->
  main a w = (Ok 0, printed url w).
Proof.
  intros Hitems Hfirst Hc.
  assert (Hs : selects a = true)
    by (unfold selects; destruct Hc as [[-> _]|[-> _]]; reflexivity).
  rewrite (main_selects a w Hs), Hitems, release_loop_first_match, Hfirst.
  unfold act_on_release.
  destruct Hc as [[Hc Hurl]|[Hc Hurl]]; rewrite Hc.
  - change (command_in (lit "download_url") [lit "download"; lit "download_url"])
      with true.
    change (bool_decide (lit "download_url" = lit "download")) with false.
    change (bool_decide (lit "download_url" = lit "download_url")) with true.
    cbn iota. unfold bind at 1, lift at 1. rewrite Hurl. reflexivity.
  - change (command_in (lit "checksum_url") [lit "download"; lit "download_url"])
      with false.
    change (command_in (lit "checksum_url") [lit "checksum"; lit "checksum_url"])
      with true.
    change (bool_decide (lit "checksum_url" = lit "checksum")) with false.
    change (bool_decide (lit "checksum_url" = lit "checksum_url")) with true.
    cbn iota. unfold bind at 1, lift at 1. rewrite Hurl. reflexivity.
Qed.

(** X17. There is no fallback to a later release: when the selected
    release has no Linux link of the kind the command needs, the error
    of the lookup ends the run, with nothing printed or written. *)
Theorem main_selected_without_link a w items release e :
  decoded_releases a w = Ok items ->
  first_match a items = Ok (Some release) ->
  (command_in (command a) [lit "download"; lit "download_url"] = true
   /\ linux_item release "link" = Raise e)
  \/ (command_in (command a) [lit "checksum"; lit "checksum_url"] = true
      /\ linux_item release "checksumLink" = Raise e) ->
  main a w = (Raise e, w).
Proof.
  intros Hitems Hfirst Hc.
  assert (Hs : selects a = true).
  { unfold selects, command_in in *. apply bool_decide_eq_true.
    destruct Hc as [[Hc _]|[Hc _]]; apply bool_decide_eq_true in Hc;
      apply list_elem_of_In in Hc; apply list_elem_of_In; cbn [In] in *; tauto. }
  rewrite (main_selects a w Hs), Hitems, release_loop_first_match, Hfirst.
  unfold act_on_release.
  destruct Hc as [[Hc Hurl]|[Hc Hurl]].
  - rewrite Hc. unfold bind at 1, lift at 1. rewrite Hurl. reflexivity.
  - assert (Hd : command_in (command a) [lit "download"; lit "download_url"]
                 = false).
    { unfold command_in in *. apply bool_decide_eq_true in Hc.
      apply list_elem_of_In in Hc. cbn [In] in Hc.
      destruct Hc as [<-|[<-|[]]]; reflexivity. }
    rewrite Hd, Hc. unfold bind at 1, lift at 1. rewrite Hurl. reflexivity.
Qed.

(** X18. The scan stops at a release it cannot test: when a version is
    requested and the releases before [release] do not match, a release
    record without a version raises KeyError, even if a later release
    would match. *)
Theorem main_release_without_version a w before d after :
  selects a = true ->
  truthy (version a) = true ->
  decoded_releases a w = Ok (before ++ VDict d :: after) ->
  Forall (fun release => has_version_and_build release = true
                         /\ meets_criteria a release = false) before ->
  dict_get (lit "version") d = None ->
  main a w = (Raise (KeyError (VStr (lit "version"))), w).
Proof.
  intros Hs Hv Hitems Hbefore Hmiss.
  assert (Hfirst : first_match a (before ++ VDict d :: after)
                   = Raise (KeyError (VStr (lit "version")))).
  { clear Hitems.
    induction Hbefore as [|release before [Hfields Hno] _ IH]; cbn [app first_match].
    - unfold release_matches. rewrite Hv. cbn [negb orb].
      cbn [subscript hashable]. rewrite Hmiss. reflexivity.
    - rewrite (release_matches_criteria a release Hfields (or_introl Hv)), Hno.
      exact IH. }
  rewrite (main_selects a w Hs), Hitems, release_loop_first_match, Hfirst.
  reflexivity.
Qed.

End LinkProperties.

Lemma main_prints_link_witness :
  main (L:=sample_lib) (sample_arguments "checksum_url" None (Some (lit "2")))
    sample_world
  = (Ok 0, printed (VStr (sample_link "2" ++ lit ".sha256")) sample_world).
Proof.
  apply (main_prints_link (L:=sample_lib) _ _ sample_releases
           (sample_release "2023.2" "2")).
  - vm_compute. reflexivity.
  - vm_compute. reflexivity.
  - right. split; reflexivity.
Defined.

Lemma main_selected_without_link_witness :
  main (L:=sample_lib_for (VDict [(lit "IC", VList [release_without_links])]))
    (sample_arguments "download" None None) sample_world
  = (Raise (KeyError (VStr (lit "downloads"))), sample_world).
Proof.
  apply (main_selected_without_link
           (L:=sample_lib_for (VDict [(lit "IC", VList [release_without_links])]))
           _ _ [release_without_links] release_without_links).
  - vm_compute. reflexivity.
  - vm_compute. reflexivity.
  - left. split; reflexivity.
Defined.

Lemma main_release_without_version_witness :
  main (L:=sample_lib_for
            (VDict [(lit "IC", VList [sample_release "2023.1" "1";
                                      release_without_version;
                                      sample_release "2023.2" "2"])]))
    (sample_arguments "download_url" (Some (lit "2023.2")) None) sample_world
  = (Raise (KeyError (VStr (lit "version"))), sample_world).
Proof.
  apply (main_release_without_version
           (L:=sample_lib_for
                 (VDict [(lit "IC", VList [sample_release "2023.1" "1";
                                           release_without_version;
                                           sample_release "2023.2" "2"])]))
           _ _ [sample_release "2023.1" "1"] (fields_of release_without_version)
           [sample_release "2023.2" "2"]).
  - reflexivity.
  - reflexivity.
  - vm_compute. reflexivity.
  - repeat constructor.
  - reflexivity.
Defined.
